(** * The Turn.js book controller of left-side-magic (script.js)

    A shallow embedding of the [TurnJSBook] class: the sequential image
    preload ([createPages], [loadImage]), the widget start-up
    ([initializeTurnJS]), the navigation handlers ([bindEvents]) and the
    synchronisation of the buttons and page shadows ([updateUI],
    [updatePageShadows]).

    Conventions of the embedding:
    - JavaScript numbers that hold page numbers are [Z]; the loop counter
      of [createPages], which starts at 0 and is only incremented, is [nat];
    - strings are [string]; a template literal is a concatenation;
    - the object and the DOM nodes its jQuery handles point to form one
      record, [TurnJSBook], threaded through every method;
    - a method that can throw or await returns a [Completion];
    - everything the program does not decide itself (the network, the
      presence of jQuery and Turn.js, what the plugin answers) is read from
      a [Browser] record;
    - calls to [console.log] and [console.error] are left out: they change
      nothing the program reads back;
    - the flip plugin is an outside collaborator: the model keeps what the
      script asks of it (the call with its options, the commands) and what
      it answers (its page and view), not what it does on its own to the
      children of [#flipbook]; what is said of the container is said of the
      script's own writes. *)

From stdpp Require Import base list strings pretty.
From Stdlib Require Import ZArith Lia Ascii.

(** ** JavaScript values and string methods *)

Module JS.

(** [new Error(message)] *)
Record Error := mkError { message : string }.

(** [s.repeat(n)] *)
Fixpoint string_repeat (n : nat) (s : string) : string :=
  match n with
  | O => ""
  | S n' => s +:+ string_repeat n' s
  end.

(** [s.padStart(targetLength, padString)]: [s] itself when it is long
    enough or the filler is empty, otherwise the filler repeated and cut
    to the missing length, then [s]. *)
Definition padStart (targetLength : nat) (padString : string) (s : string)
  : string :=
  let len := String.length s in
  if bool_decide (targetLength <= len) then s
  else if bool_decide (padString = "") then s
  else
    let fillLen := targetLength - len in
    String.substring 0 fillLen (string_repeat fillLen padString) +:+ s.

(** [i.toString()] of a non-negative integer: its decimal digits. *)
Definition toString (i : nat) : string := pretty i.

End JS.

(** ** DOM nodes and the jQuery calls the script makes *)

Record Img := mkImg { src : string; alt : string }.

(** A child of [#flipbook]: its class list and the images appended to it. *)
Record Element := mkElement { classes : list string; content : list Img }.

Module jQuery.

(** A jQuery object over the children of [#flipbook]: the positions of the
    nodes it holds, in document order. *)
Abbreviation Selection := (list nat).

Definition hasClass (c : string) (e : Element) : bool :=
  bool_decide (c ∈ classes e).

(** [addClass] adds a class name only when the node does not have it. *)
Definition addClass (c : string) (e : Element) : Element :=
  if hasClass c e then e
  else {| classes := classes e ++ [c]; content := content e |}.

(** [removeClass('a b')] drops every occurrence of the listed names. *)
Definition removeClass (cs : list string) (e : Element) : Element :=
  {| classes := filter (fun c => c ∉ cs) (classes e);
     content := content e |}.

(** [page.append(img)] *)
Definition append (i : Img) (e : Element) : Element :=
  {| classes := classes e; content := content e ++ [i] |}.

(** [this.flipbook.find('.page')] *)
Definition find (c : string) (dom : list Element) : Selection :=
  filter (fun k => default false (hasClass c <$> dom !! k))
         (seq 0 (length dom)).

(** A jQuery method applied to a selection acts on each node it holds. *)
Definition each (f : Element -> Element) (sel : Selection)
    (dom : list Element) : list Element :=
  imap (fun k e => if bool_decide (k ∈ sel) then f e else e) dom.

(** [sel.eq(i)]: the node at index [i], counted from the end when [i] is
    negative; the empty selection when there is no such node. *)
Definition eq (i : Z) (sel : Selection) : Selection :=
  let len := Z.of_nat (length sel) in
  let j := if bool_decide (i < 0)%Z then (i + len)%Z else i in
  if bool_decide (0 <= j < len)%Z
  then match sel !! Z.to_nat j with
       | Some k => [k]
       | None => []
       end
  else [].

End jQuery.

(** ** The promise built by [loadImage] *)

Inductive Settlement :=
| Pending
| Fulfilled
| Rejected (e : JS.Error).

(** The timer made by [setTimeout]: waiting, removed by [clearTimeout], or
    run. *)
Inductive TimerStatus := Armed | Cleared | Fired.

Record Promise := mkPromise {
  state : Settlement;
  timer : TimerStatus;
  delay : Z               (* milliseconds given to setTimeout *)
}.

(** [img.onload] and [img.onerror]. *)
Inductive Signal := Onload | Onerror.
(** What the event loop hands to the promise: a signal of the image, or
    the timer coming due. *)
Inductive Arrival := Sig (s : Signal) | TimerDue.

(** ** The environment *)

(** What happens to one image: whether it is already complete when
    [loadImage] looks, the signals the browser delivers before the timer is
    due, and those it delivers afterwards. *)
Record ImageFate := mkFate {
  complete : bool;
  early : list Signal;
  late : list Signal
}.

(** The state of the flip widget the script can query:
    [turn('page')] and [turn('view')] ([None] for null or undefined). *)
Record Widget := mkWidget {
  turn_page : Z;
  turn_view : option (list Z)
}.

(** The options object passed to [this.flipbook.turn({...})]. *)
Record TurnOptions := mkTurnOptions {
  width : Z; height : Z; autoCenter : bool; duration : Z;
  gradients : bool; elevation : Z;
  when_turning : bool; when_turned : bool   (* callbacks supplied *)
}.

Record Browser := mkBrowser {
  absolute : string -> string;        (* img.src for a src attribute *)
  fate : string -> ImageFate;         (* by src attribute *)
  jquery_loaded : bool;               (* typeof $ !== 'undefined' *)
  turn_loaded : bool;                 (* typeof $.fn.turn !== 'undefined' *)
  turn_create : TurnOptions -> list Element -> JS.Error + Widget
                                      (* the plugin's constructor *)
}.

(** ** The controller *)

Inductive Command := Previous | Next.

(** Handlers registered by [bindEvents]. *)
Inductive Listener := PrevClick | NextClick | Keydown.

Inductive Button := PrevBtn | NextBtn.

(** User input. *)
Inductive DomEvent := Click (target : Button) | Key (key : string).

(** What the controller asks of the outside world, in order. *)
Inductive Action :=
| Requested (path : string)          (* an <img> created with this src *)
| Settled (path : string) (p : Promise)
| Appended (path : string)           (* its page appended to #flipbook *)
| TurnInit (o : TurnOptions)         (* this.flipbook.turn({...}) *)
| TurnCommand (c : Command).         (* this.flipbook.turn('previous'|'next') *)

(** [#loading]: its class list, and the text and colour of its [p]. *)
Record Loading := mkLoading {
  loading_classes : list string;
  loading_text : string;
  loading_color : string
}.

Record TurnJSBook := mkBook {
  totalPages : Z;
  isLoaded : bool;
  flipbook : list Element;      (* children of #flipbook *)
  turn : option Widget;         (* Turn.js attached to #flipbook, once made *)
  prevBtn : bool;               (* #prev-btn's disabled property *)
  nextBtn : bool;               (* #next-btn's disabled property *)
  loadingElement : Loading;
  listeners : list Listener;
  actions : list Action
}.

Definition with_isLoaded (v : bool) (b : TurnJSBook) : TurnJSBook :=
  mkBook (totalPages b) v (flipbook b) (turn b) (prevBtn b) (nextBtn b)
         (loadingElement b) (listeners b) (actions b).
Definition with_flipbook (v : list Element) (b : TurnJSBook) : TurnJSBook :=
  mkBook (totalPages b) (isLoaded b) v (turn b) (prevBtn b) (nextBtn b)
         (loadingElement b) (listeners b) (actions b).
Definition with_turn (v : option Widget) (b : TurnJSBook) : TurnJSBook :=
  mkBook (totalPages b) (isLoaded b) (flipbook b) v (prevBtn b) (nextBtn b)
         (loadingElement b) (listeners b) (actions b).
Definition with_prevBtn (v : bool) (b : TurnJSBook) : TurnJSBook :=
  mkBook (totalPages b) (isLoaded b) (flipbook b) (turn b) v (nextBtn b)
         (loadingElement b) (listeners b) (actions b).
Definition with_nextBtn (v : bool) (b : TurnJSBook) : TurnJSBook :=
  mkBook (totalPages b) (isLoaded b) (flipbook b) (turn b) (prevBtn b) v
         (loadingElement b) (listeners b) (actions b).
Definition with_loadingElement (v : Loading) (b : TurnJSBook) : TurnJSBook :=
  mkBook (totalPages b) (isLoaded b) (flipbook b) (turn b) (prevBtn b)
         (nextBtn b) v (listeners b) (actions b).
Definition with_listeners (v : list Listener) (b : TurnJSBook) : TurnJSBook :=
  mkBook (totalPages b) (isLoaded b) (flipbook b) (turn b) (prevBtn b)
         (nextBtn b) (loadingElement b) v (actions b).
Definition with_actions (v : list Action) (b : TurnJSBook) : TurnJSBook :=
  mkBook (totalPages b) (isLoaded b) (flipbook b) (turn b) (prevBtn b)
         (nextBtn b) (loadingElement b) (listeners b) v.

(** ** Methods that can throw or await *)

(** How a method call ends: it returns, it throws, or it waits for ever on
    a promise that never settles. *)
Inductive Completion (A : Type) :=
| Normal (a : A)
| Throws (e : JS.Error)
| Suspended.
Arguments Normal {A} a.
Arguments Throws {A} e.
Arguments Suspended {A}.

Definition M (A : Type) : Type := TurnJSBook -> Completion A * TurnJSBook.

Definition ret {A} (a : A) : M A := fun b => (Normal a, b).
Definition throw {A} (e : JS.Error) : M A := fun b => (Throws e, b).
Definition bind {A B} (m : M A) (k : A -> M B) : M B :=
  fun b =>
    match m b with
    | (Normal a, b') => k a b'
    | (Throws e, b') => (Throws e, b')
    | (Suspended, b') => (Suspended, b')
    end.
(** A method without [throw] or [await]. *)
Definition modify (f : TurnJSBook -> TurnJSBook) : M unit :=
  fun b => (Normal tt, f b).
(** [try { body } catch (error) { handler }] *)
Definition try_catch (body : M unit) (handler : JS.Error -> M unit) : M unit :=
  fun b =>
    match body b with
    | (Throws e, b') => handler e b'
    | r => r
    end.

Declare Scope js_scope.
Delimit Scope js_scope with js.
Notation "x <- m ;; k" := (bind m (fun x => k))
  (at level 100, m at next level, right associativity) : js_scope.
Notation "m ;; k" := (bind m (fun _ => k))
  (at level 100, right associativity) : js_scope.
Open Scope js_scope.

Definition record (a : Action) : M unit :=
  modify (fun b => with_actions (actions b ++ [a]) b).

(** ** [showLoading], [hideLoading], [showError] *)

Definition showLoading : M unit :=
  modify (fun b =>
    let l := loadingElement b in
    with_loadingElement
      (mkLoading (filter (fun c => c ∉ ["hidden"]) (loading_classes l))
                 (loading_text l) (loading_color l)) b).

Definition hideLoading : M unit :=
  modify (fun b =>
    let l := loadingElement b in
    with_loadingElement
      (mkLoading (if bool_decide ("hidden" ∈ loading_classes l)
                  then loading_classes l
                  else loading_classes l ++ ["hidden"])
                 (loading_text l) (loading_color l)) b).

Definition showError (error : JS.Error) : M unit :=
  modify (fun b =>
    let l := loadingElement b in
    with_loadingElement
      (mkLoading (loading_classes l)
                 ("Error: " +:+ JS.message error
                    +:+ ". Check console for details.")
                 "#ff6b6b") b).

(** ** [loadImage] *)

Section LoadImage.
Variable br : Browser.
Variable img : Img.

(** [resolve()] and [reject(e)] settle a pending promise and do nothing
    to a settled one. *)
Definition resolve (p : Promise) : Promise :=
  match state p with
  | Pending => mkPromise Fulfilled (timer p) (delay p)
  | _ => p
  end.

Definition reject (e : JS.Error) (p : Promise) : Promise :=
  match state p with
  | Pending => mkPromise (Rejected e) (timer p) (delay p)
  | _ => p
  end.

(** [clearTimeout(timeout)] removes a waiting timer. *)
Definition clearTimeout (p : Promise) : Promise :=
  match timer p with
  | Armed => mkPromise (state p) Cleared (delay p)
  | _ => p
  end.

(** The callback given to [setTimeout]. *)
Definition on_timeout (p : Promise) : Promise :=
  reject (JS.mkError ("Image load timeout: " +:+ absolute br (src img))) p.

(** [img.onload] *)
Definition onload (p : Promise) : Promise :=
  resolve (clearTimeout p).

(** [img.onerror] *)
Definition onerror (p : Promise) : Promise :=
  reject (JS.mkError ("Failed to load image: " +:+ absolute br (src img)))
         (clearTimeout p).

(** The body of [new Promise((resolve, reject) => ...)]: the timer is set
    for 30000 ms, the two handlers are installed, and a complete image
    resolves at once. *)
Definition loadImage : Promise :=
  let p := mkPromise Pending Armed 30000 in
  if complete (fate br (src img)) then resolve (clearTimeout p) else p.

(** One turn of the event loop: a signal runs its handler; the timer's
    callback runs only if the timer is still waiting. *)
Definition deliver (p : Promise) (a : Arrival) : Promise :=
  match a with
  | Sig Onload => onload p
  | Sig Onerror => onerror p
  | TimerDue =>
      match timer p with
      | Armed => on_timeout (mkPromise (state p) Fired (delay p))
      | _ => p
      end
  end.

(** Everything that arrives for this image, in order. *)
Definition arrivals : list Arrival :=
  let f := fate br (src img) in
  (Sig <$> early f) ++ TimerDue :: (Sig <$> late f).

(** The promise once the event loop has delivered everything. *)
Definition settle (p : Promise) : Promise := foldl deliver p arrivals.

End LoadImage.

(** [await promise] *)
Definition await (p : Promise) : M unit :=
  match state p with
  | Fulfilled => ret tt
  | Rejected e => throw e
  | Pending => fun b => (Suspended, b)
  end.

(** ** [createPages] *)

(** The path of page [i] (lines 52 to 59). *)
Definition imagePath (i : nat) : string :=
  if bool_decide (i = 0) then "individual_pages/page_000_cover.jpg"
  else "individual_pages/page_" +:+ JS.padStart 3 "0" (JS.toString i)
         +:+ ".jpg".

(** [$('<img>').attr('src', imagePath).attr('alt', `Page ${i + 1}`)] *)
Definition new_img (i : nat) : Img :=
  mkImg (imagePath i) ("Page " +:+ JS.toString (i + 1)).

(** [$('<div class="page"></div>')] *)
Definition new_page : Element := mkElement ["page"] [].

(** The page of index [i] as it is appended. *)
Definition page_of (i : nat) : Element := jQuery.append (new_img i) new_page.

(** One iteration of the loop. *)
Definition createPages_step (br : Browser) (i : nat) : M unit :=
  let page := new_page in
  let img := new_img i in
  record (Requested (src img)) ;;
  let p := settle br img (loadImage br img) in
  record (Settled (src img) p) ;;
  await p ;;
  let page := jQuery.append img page in
  modify (fun b => with_flipbook (flipbook b ++ [page]) b) ;;
  record (Appended (src img)).

(** [for (let i = ...; i < this.totalPages; i++)] with [n] iterations
    left. *)
Fixpoint createPages_from (br : Browser) (n : nat) (i : nat) : M unit :=
  match n with
  | O => ret tt
  | S n' => createPages_step br i ;; createPages_from br n' (S i)
  end.

(** The loop starts at 0 and runs while [i < this.totalPages], which no
    iteration changes: [totalPages] iterations, none when it is not
    positive. *)
Definition createPages (br : Browser) : M unit :=
  fun b => createPages_from br (Z.to_nat (totalPages b)) 0 b.

(** ** [updatePageShadows] and [updateUI] *)

(** [this.flipbook.turn('view')] and [this.flipbook.turn('page')]; before
    the plugin is attached there is no view and no page. *)
Definition view_of (b : TurnJSBook) : option (list Z) :=
  w ← turn b; turn_view w.
Definition page_of_turn (b : TurnJSBook) : Z :=
  default 0%Z (turn_page <$> turn b).

(** [this.flipbook.find('.page').eq(i).addClass(c)] *)
Definition shade (i : Z) (c : string) (b : TurnJSBook) : TurnJSBook :=
  let dom := flipbook b in
  with_flipbook
    (jQuery.each (jQuery.addClass c) (jQuery.eq i (jQuery.find "page" dom))
                 dom) b.

Definition updatePageShadows (page : Z) (b : TurnJSBook) : TurnJSBook :=
  let b :=
    let dom := flipbook b in
    with_flipbook
      (jQuery.each (jQuery.removeClass ["left-shadow"; "right-shadow"])
                   (jQuery.find "page" dom) dom) b in
  match view_of b with
  | Some (v0 :: v1 :: _) =>
      (* view.length >= 2 *)
      let leftPageIndex := (v0 - 1)%Z in
      let rightPageIndex := (v1 - 1)%Z in
      let b := if bool_decide (page > 1 /\ leftPageIndex >= 0)%Z
               then shade leftPageIndex "left-shadow" b else b in
      if bool_decide (rightPageIndex >= 0)%Z
      then shade rightPageIndex "right-shadow" b else b
  | Some [v0] =>
      let pageIndex := (v0 - 1)%Z in
      if bool_decide (page = 1%Z)
      then shade pageIndex "right-shadow" b
      else shade pageIndex "left-shadow" b
  | _ => b            (* null, undefined or empty *)
  end.

(** The first line of [updateUI]: a falsy argument is replaced by the
    widget's own page. *)
Definition page_or_current (page : Z) (b : TurnJSBook) : Z :=
  if bool_decide (page = 0%Z) then page_of_turn b else page.

Definition updateUI (page : Z) (b : TurnJSBook) : TurnJSBook :=
  let page := page_or_current page b in
  let b := with_prevBtn (bool_decide (page <= 1)%Z) b in
  let b := with_nextBtn (bool_decide (page >= totalPages b)%Z) b in
  updatePageShadows page b.

(** ** [initializeTurnJS] *)

Definition turn_options : TurnOptions :=
  mkTurnOptions 800 600 true 1000 true 50 true true.

Definition initializeTurnJS (br : Browser) : M unit :=
  fun b =>
    if negb (jquery_loaded br)
    then (Throws (JS.mkError "jQuery is not loaded"), b)
    else if negb (turn_loaded br)
    then (Throws (JS.mkError "Turn.js is not loaded"), b)
    else
      let b := with_actions (actions b ++ [TurnInit turn_options]) b in
      match turn_create br turn_options (flipbook b) with
      | inl e => (Throws e, b)
      | inr w =>
          let b := with_turn (Some w) b in
          let b := updateUI 1 b in
          (Normal tt, with_isLoaded true b)
      end.

(** The two callbacks passed in [when]: [turning] only writes to the
    console, [turned] calls [updateUI(page)]. *)
Definition turning (page : Z) (b : TurnJSBook) : TurnJSBook := b.
Definition turned (page : Z) (b : TurnJSBook) : TurnJSBook := updateUI page b.

(** ** [bindEvents] and the handlers it installs *)

Definition turn_command (c : Command) : M unit := record (TurnCommand c).

Definition on_prev_click : M unit :=
  fun b => if isLoaded b then turn_command Previous b else ret tt b.

Definition on_next_click : M unit :=
  fun b => if isLoaded b then turn_command Next b else ret tt b.

Definition on_keydown (key : string) : M unit :=
  fun b =>
    if negb (isLoaded b) then ret tt b
    else if bool_decide (key = "ArrowLeft") then turn_command Previous b
    else if bool_decide (key = "ArrowRight") then turn_command Next b
    else ret tt b.

Definition bindEvents : M unit :=
  modify (fun b =>
    with_listeners (listeners b ++ [PrevClick; NextClick; Keydown]) b).

(** What one installed handler does with an event. *)
Definition handle (ev : DomEvent) (l : Listener) : M unit :=
  match l, ev with
  | PrevClick, Click PrevBtn => on_prev_click
  | NextClick, Click NextBtn => on_next_click
  | Keydown, Key k => on_keydown k
  | _, _ => ret tt
  end.

(** The browser runs the installed handlers in the order they were bound;
    the set is the one present when the event is dispatched. *)
Fixpoint run_handlers (ev : DomEvent) (ls : list Listener) : M unit :=
  match ls with
  | [] => ret tt
  | l :: ls' => handle ev l ;; run_handlers ev ls'
  end.

Definition dispatch (ev : DomEvent) : M unit :=
  fun b => run_handlers ev (listeners b) b.

(** ** [init] and the constructor *)

Definition init (br : Browser) : M unit :=
  try_catch
    (showLoading ;;
     createPages br ;;
     initializeTurnJS br ;;
     bindEvents ;;
     hideLoading)
    showError.

(** The host document: what [#flipbook] and [#loading] hold and how the two
    buttons stand when the script starts. *)
Record Document := mkDocument {
  doc_flipbook : list Element;
  doc_prev_disabled : bool;
  doc_next_disabled : bool;
  doc_loading : Loading
}.

(** The object once the constructor has assigned its fields:
    [totalPages = 21], [isLoaded = false] and the four jQuery handles into
    the host document; the script has bound no handler and made no widget
    yet. *)
Definition fresh_book (d : Document) : TurnJSBook :=
  mkBook 21 false (doc_flipbook d) None (doc_prev_disabled d)
         (doc_next_disabled d) (doc_loading d) [] [].

(** [new TurnJSBook()]: the fields are assigned, then [this.init()] runs. *)
Definition constructor (br : Browser) (d : Document)
  : Completion unit * TurnJSBook :=
  init br (fresh_book d).

(** ** What happens after start-up *)

(** The inputs the page receives: a click or a key, and the two callbacks
    of the widget; when a turn completes the widget has a new page and view
    to report. *)
Inductive Input :=
| UserInput (ev : DomEvent)
| WidgetTurning (page : Z)
| WidgetTurned (w : Widget).

(** The callbacks exist only once [turn({...})] has been called. *)
Definition react (b : TurnJSBook) (i : Input) : TurnJSBook :=
  match i with
  | UserInput ev => (dispatch ev b).2
  | WidgetTurning page =>
      match turn b with
      | Some _ => turning page b
      | None => b
      end
  | WidgetTurned w =>
      match turn b with
      | Some _ => turned (turn_page w) (with_turn (Some w) b)
      | None => b
      end
  end.

Definition run (b : TurnJSBook) (inputs : list Input) : TurnJSBook :=
  foldl react b inputs.

(** ** Vocabulary of the statements *)

(** A run of [n] zeros. *)
Definition zeros (n : nat) : string := JS.string_repeat n "0".

(** Reading a string of decimal digits. *)
Definition is_digit (a : ascii) : bool :=
  bool_decide (a ∈ ["0"; "1"; "2"; "3"; "4"; "5"; "6"; "7"; "8"; "9"]%char).

Fixpoint digits_only (s : string) : bool :=
  match s with
  | "" => true
  | String a s' => is_digit a && digits_only s'
  end.

Definition digit_value (a : ascii) : N :=
  (N_of_ascii a - 48)%N.

Fixpoint read_decimal (acc : N) (s : string) : N :=
  match s with
  | "" => acc
  | String a s' => read_decimal (10 * acc + digit_value a) s'
  end.

(** The numeric field of the file name of page [i]. *)
Definition numeric_field (i : nat) : string :=
  JS.padStart 3 "0" (JS.toString i).

(** The promise of page [i] as [await] finds it. *)
Definition loaded (br : Browser) (i : nat) : Promise :=
  settle br (new_img i) (loadImage br (new_img i)).

(** The two errors [loadImage] can reject with. *)
Definition timeout_error (br : Browser) (img : Img) : JS.Error :=
  JS.mkError ("Image load timeout: " +:+ absolute br (src img)).
Definition failure_error (br : Browser) (img : Img) : JS.Error :=
  JS.mkError ("Failed to load image: " +:+ absolute br (src img)).

(** What a completed iteration for page [i] leaves in the record of
    actions. *)
Definition page_trace (br : Browser) (i : nat) : list Action :=
  [Requested (imagePath i); Settled (imagePath i) (loaded br i);
   Appended (imagePath i)].

(** What an iteration whose load is rejected leaves there. *)
Definition failed_trace (br : Browser) (i : nat) : list Action :=
  [Requested (imagePath i); Settled (imagePath i) (loaded br i)].

(** The book with pages appended to [#flipbook] and actions recorded, and
    nothing else changed. *)
Definition advance (pages : list Element) (acts : list Action)
    (b : TurnJSBook) : TurnJSBook :=
  with_actions (actions b ++ acts) (with_flipbook (flipbook b ++ pages) b).

(** A promise that is settled and whose timer no longer waits. *)
Definition at_rest (p : Promise) : Prop :=
  state p <> Pending /\ timer p <> Armed.

(** The two shadow classes. *)
Definition shadow_classes : list string := ["left-shadow"; "right-shadow"].

(** The page of rank [k] among the [.page] nodes of [#flipbook]. *)
Definition nth_page (k : nat) (dom : list Element) : option Element :=
  pos ← jQuery.find "page" dom !! k; dom !! pos.

(** The index [sel.eq(i)] looks at in a selection of [n] nodes. *)
Definition eq_index (i : Z) (n : nat) : Z :=
  if bool_decide (i < 0)%Z then (i + Z.of_nat n)%Z else i.

(** The selections [updatePageShadows] gives the left and the right shadow
    to, for a page number, a view and the selection of all pages. *)
Definition left_targets (page : Z) (view : option (list Z))
    (sel : jQuery.Selection) : jQuery.Selection :=
  match view with
  | Some (v0 :: _ :: _) =>
      if bool_decide (page > 1 /\ v0 - 1 >= 0)%Z
      then jQuery.eq (v0 - 1) sel else []
  | Some [v0] =>
      if bool_decide (page = 1%Z) then [] else jQuery.eq (v0 - 1) sel
  | _ => []
  end.

Definition right_targets (page : Z) (view : option (list Z))
    (sel : jQuery.Selection) : jQuery.Selection :=
  match view with
  | Some (_ :: v1 :: _) =>
      if bool_decide (v1 - 1 >= 0)%Z then jQuery.eq (v1 - 1) sel else []
  | Some [v0] =>
      if bool_decide (page = 1%Z) then jQuery.eq (v0 - 1) sel else []
  | _ => []
  end.

(** A node with its shadow classes removed, then the left and the right
    one added as told. *)
Definition repaint (l r : bool) (e : Element) : Element :=
  let e := jQuery.removeClass shadow_classes e in
  let e := if l then jQuery.addClass "left-shadow" e else e in
  if r then jQuery.addClass "right-shadow" e else e.

(** The shadow rule by rank: whether the page of rank [k] (0-based) among
    [n] pages carries the left, respectively the right, shadow for a page
    number and a view. *)
Definition left_shadow_at (page : Z) (view : option (list Z)) (n k : nat)
  : bool :=
  match view with
  | Some (v0 :: _ :: _) => bool_decide (page > 1 /\ Z.of_nat k = v0 - 1)%Z
  | Some [v0] =>
      bool_decide (page <> 1 /\ Z.of_nat k = eq_index (v0 - 1) n)%Z
  | _ => false
  end.

Definition right_shadow_at (page : Z) (view : option (list Z)) (n k : nat)
  : bool :=
  match view with
  | Some (_ :: v1 :: _) => bool_decide (Z.of_nat k = v1 - 1)%Z
  | Some [v0] =>
      bool_decide (page = 1 /\ Z.of_nat k = eq_index (v0 - 1) n)%Z
  | _ => false
  end.

(** The number of [.page] nodes in [#flipbook]. *)
Definition page_count (b : TurnJSBook) : nat :=
  length (jQuery.find "page" (flipbook b)).

(** Whether the page of rank [k] carries the left and the right shadow
    class; [None] when there is no such page. *)
Definition page_shadows (k : nat) (b : TurnJSBook) : option (bool * bool) :=
  (fun e => (jQuery.hasClass "left-shadow" e,
             jQuery.hasClass "right-shadow" e))
    <$> nth_page k (flipbook b).

(** The book with the shadow classes taken off every page. *)
Definition clear_shadows (b : TurnJSBook) : TurnJSBook :=
  with_flipbook
    (jQuery.each (jQuery.removeClass shadow_classes)
                 (jQuery.find "page" (flipbook b)) (flipbook b)) b.

(** ** Scenarios *)

(** A browser in which jQuery and Turn.js are loaded, every image sends its
    load signal in time, and the plugin starts on page 1 with the view
    [0, 1]. *)
Definition good_browser : Browser :=
  mkBrowser (fun s => "http://localhost/" +:+ s)
            (fun _ => mkFate false [Onload] [])
            true true
            (fun _ _ => inr (mkWidget 1 (Some [0; 1]%Z))).

(** The same browser, except that the image at [bad] sends nothing before
    the timer is due and its load signal only afterwards. *)
Definition slow_browser (bad : string) : Browser :=
  mkBrowser (absolute good_browser)
            (fun s => if bool_decide (s = bad) then mkFate false [] [Onload]
                      else fate good_browser s)
            true true (turn_create good_browser).

(** A host document with an empty [#flipbook], enabled buttons and a hidden
    loading indicator. *)
Definition empty_document : Document :=
  mkDocument [] false false (mkLoading ["hidden"] "Loading..." "").

(** The book of 21 pages once [init] has run in the good browser. *)
Definition ready_book : TurnJSBook :=
  (constructor good_browser empty_document).2.

(** The book when the widget reports a page and a view. *)
Definition reporting (page : Z) (view : list Z) (b : TurnJSBook)
  : TurnJSBook :=
  with_turn (Some (mkWidget page (Some view))) b.

(** The good browser without jQuery, and with jQuery but without
    Turn.js. *)
Definition browser_without_jquery : Browser :=
  mkBrowser (absolute good_browser) (fate good_browser) false true
            (turn_create good_browser).
Definition browser_without_turn : Browser :=
  mkBrowser (absolute good_browser) (fate good_browser) true false
            (turn_create good_browser).

(** ** Vocabulary of the further properties *)

(** The number of iterations of the loop of [createPages]. *)
Definition iterations (b : TurnJSBook) : nat := Z.to_nat (totalPages b).

(** The error [initializeTurnJS] throws over the children [dom] of
    [#flipbook], if it throws: a missing library, or what the plugin's
    constructor throws. *)
Definition widget_failure (br : Browser) (dom : list Element)
  : option JS.Error :=
  if negb (jquery_loaded br) then Some (JS.mkError "jQuery is not loaded")
  else if negb (turn_loaded br) then Some (JS.mkError "Turn.js is not loaded")
  else match turn_create br turn_options dom with
       | inl e => Some e
       | inr _ => None
       end.

(** The text [showError] puts in the loading indicator. *)
Definition error_text (e : JS.Error) : string :=
  "Error: " +:+ JS.message e +:+ ". Check console for details.".

(** The class lists and the images of the nodes, shadow classes left
    out. *)
Definition without_shadows (e : Element) : Element :=
  jQuery.removeClass shadow_classes e.

(** The book [init] hands to [initializeTurnJS] when every load is
    fulfilled: the loading indicator shown, the pages appended, their
    actions recorded. *)
Definition preloaded (br : Browser) (b : TurnJSBook) : TurnJSBook :=
  advance (page_of <$> seq 0 (iterations b))
          (mjoin (page_trace br <$> seq 0 (iterations b)))
          (showLoading b).2.

(** A book of no page at all, and the ready book with a note, which is not
    a page, put first in the container. *)
Definition empty_book : TurnJSBook :=
  mkBook 0 false [] None false false (mkLoading [] "" "") [] [].
Definition note : Element := mkElement ["note"; "left-shadow"] [].
Definition annotated_book : TurnJSBook :=
  with_flipbook (note :: flipbook ready_book)
                (reporting 5 [4; 5]%Z ready_book).

(** An input as the browser delivers it: a click on a disabled button
    reaches no handler; a key always reaches the document. *)
Definition deliver_input (ev : DomEvent) : M unit :=
  fun b =>
    match ev with
    | Click PrevBtn => if prevBtn b then ret tt b else dispatch ev b
    | Click NextBtn => if nextBtn b then ret tt b else dispatch ev b
    | Key _ => dispatch ev b
    end.

(** The good browser with a plugin whose constructor throws. *)
Definition browser_with_faulty_plugin : Browser :=
  mkBrowser (absolute good_browser) (fate good_browser) true true
            (fun _ _ => inl (JS.mkError "turn: cannot start")).

(** * Properties *)

(** ** Strings, decimal digits and padding *)

Section StringFacts.

Lemma append_nil_l (s : string) : "" +:+ s = s.
Proof. reflexivity. Qed.

Lemma append_cons (a : ascii) (s t : string) :
  String a s +:+ t = String a (s +:+ t).
Proof. reflexivity. Qed.

Lemma append_nil_r (s : string) : s +:+ "" = s.
Proof.
  induction s as [|a s IH]; [reflexivity|].
  rewrite append_cons, IH. reflexivity.
Qed.

Lemma append_assoc (s t u : string) : (s +:+ t) +:+ u = s +:+ (t +:+ u).
Proof.
  induction s as [|a s IH]; [reflexivity|].
  rewrite !append_cons, IH. reflexivity.
Qed.

Lemma length_append (s t : string) :
  String.length (s +:+ t) = String.length s + String.length t.
Proof.
  induction s as [|a s IH]; [reflexivity|].
  rewrite append_cons. simpl. rewrite IH. reflexivity.
Qed.

(** Two strings with the same tail and equal as wholes have the same
    head. *)
Lemma append_inv_tail (s1 s2 t : string) : s1 +:+ t = s2 +:+ t -> s1 = s2.
Proof.
  revert s2. induction s1 as [|a s1 IH]; intros [|b s2] H.
  - reflexivity.
  - apply (f_equal String.length) in H.
    rewrite append_nil_l, append_cons in H. simpl in H.
    rewrite length_append in H. lia.
  - apply (f_equal String.length) in H.
    rewrite append_nil_l, append_cons in H. simpl in H.
    rewrite length_append in H. lia.
  - rewrite !append_cons in H. injection H as -> H.
    f_equal. apply IH, H.
Qed.

Lemma substring_0_all (s : string) :
  String.substring 0 (String.length s) s = s.
Proof.
  induction s as [|a s IH]; [reflexivity|].
  simpl. rewrite IH. reflexivity.
Qed.

Lemma length_string_repeat (n : nat) (s : string) :
  String.length (JS.string_repeat n s) = n * String.length s.
Proof.
  induction n as [|n IH]; [reflexivity|].
  simpl. rewrite length_append, IH. reflexivity.
Qed.

End StringFacts.


Section DecimalFacts.

(** Padding with ["0"] puts the missing zeros in front. *)
Lemma padStart_zero (w : nat) (s : string) :
  JS.padStart w "0" s = zeros (w - String.length s) +:+ s.
Proof.
  unfold JS.padStart, zeros. case_bool_decide as Hw.
  - replace (w - String.length s) with 0 by lia. reflexivity.
  - rewrite bool_decide_eq_false_2 by discriminate.
    set (k := w - String.length s).
    replace k with (String.length (JS.string_repeat k "0")) at 1
      by (rewrite length_string_repeat; simpl; lia).
    rewrite substring_0_all. reflexivity.
Qed.

Lemma length_padStart_zero (w : nat) (s : string) :
  String.length (JS.padStart w "0" s) = w `max` String.length s.
Proof.
  rewrite padStart_zero, length_append. unfold zeros.
  rewrite length_string_repeat. simpl. lia.
Qed.



Lemma digits_only_append (s t : string) :
  digits_only (s +:+ t) = digits_only s && digits_only t.
Proof.
  induction s as [|a s IH]; [reflexivity|].
  rewrite append_cons. simpl. rewrite IH, andb_assoc. reflexivity.
Qed.

Lemma read_decimal_append (acc : N) (s t : string) :
  read_decimal acc (s +:+ t) = read_decimal (read_decimal acc s) t.
Proof.
  revert acc. induction s as [|a s IH]; intros acc; [reflexivity|].
  rewrite append_cons. simpl. apply IH.
Qed.

Lemma digits_only_zeros (n : nat) : digits_only (zeros n) = true.
Proof.
  induction n as [|n IH]; [reflexivity|].
  unfold zeros in *. simpl. rewrite digits_only_append, IH. reflexivity.
Qed.

Lemma read_decimal_zeros (n : nat) : read_decimal 0 (zeros n) = 0%N.
Proof.
  induction n as [|n IH]; [reflexivity|].
  unfold zeros in *. simpl. rewrite read_decimal_append. exact IH.
Qed.

Lemma pretty_N_char_digit (x : N) : is_digit (pretty_N_char x) = true.
Proof.
  unfold pretty_N_char. repeat case_match; reflexivity.
Qed.

Lemma pretty_N_char_value (x : N) :
  (x < 10)%N -> digit_value (pretty_N_char x) = x.
Proof.
  intros Hx.
  assert (x = 0 \/ x = 1 \/ x = 2 \/ x = 3 \/ x = 4 \/ x = 5 \/ x = 6
          \/ x = 7 \/ x = 8 \/ x = 9)%N as Hc by lia.
  repeat destruct Hc as [->|Hc]; try reflexivity.
  subst x. reflexivity.
Qed.

(** The digits of [x] are put in front of the accumulator. *)
Lemma pretty_N_go_append (x : N) (s : string) :
  pretty_N_go x s = pretty_N_go x "" +:+ s.
Proof.
  revert s. induction (N.lt_wf_0 x) as [x _ IH]. intros s.
  destruct (decide (x = 0)%N) as [->|Hx].
  - rewrite !pretty_N_go_0. reflexivity.
  - rewrite !(pretty_N_go_step x) by lia.
    assert (x `div` 10 < x)%N as Hlt by (apply N.div_lt; lia).
    rewrite (IH _ Hlt (String _ s)).
    rewrite (IH _ Hlt (String _ "")).
    rewrite append_assoc. reflexivity.
Qed.

Lemma pretty_N_go_snoc (x : N) :
  (0 < x)%N ->
  pretty_N_go x "" =
  pretty_N_go (x `div` 10) "" +:+ String (pretty_N_char (x `mod` 10)) "".
Proof.
  intros Hx. rewrite pretty_N_go_step by exact Hx.
  apply pretty_N_go_append.
Qed.

Lemma pretty_N_go_digits (x : N) : digits_only (pretty_N_go x "") = true.
Proof.
  induction (N.lt_wf_0 x) as [x _ IH].
  destruct (decide (x = 0)%N) as [->|Hx]; [reflexivity|].
  rewrite pretty_N_go_snoc, digits_only_append by lia.
  rewrite IH by (apply N.div_lt; lia).
  simpl. rewrite pretty_N_char_digit. reflexivity.
Qed.

Lemma pretty_N_go_value (x : N) : read_decimal 0 (pretty_N_go x "") = x.
Proof.
  induction (N.lt_wf_0 x) as [x _ IH].
  destruct (decide (x = 0)%N) as [->|Hx]; [reflexivity|].
  rewrite pretty_N_go_snoc, read_decimal_append by lia.
  rewrite IH by (apply N.div_lt; lia).
  simpl. rewrite pretty_N_char_value by (apply N.mod_lt; lia).
  symmetry. apply N.div_mod. lia.
Qed.

(** A number below [10 ^ k] has at most [k] digits. *)
Lemma pretty_N_go_length (k : nat) (x : N) :
  (x < 10 ^ N.of_nat k)%N -> String.length (pretty_N_go x "") <= k.
Proof.
  revert x. induction k as [|k IH]; intros x Hx.
  - simpl in Hx. replace x with 0%N by lia. simpl. lia.
  - destruct (decide (x = 0)%N) as [->|Hx0]; [simpl; lia|].
    rewrite pretty_N_go_snoc, length_append by lia. simpl.
    assert (x `div` 10 < 10 ^ N.of_nat k)%N as Hd.
    { apply N.Div0.div_lt_upper_bound.
      rewrite Nat2N.inj_succ, N.pow_succ_r' in Hx. exact Hx. }
    specialize (IH _ Hd). lia.
Qed.

Lemma pretty_N_go_nonempty (x : N) :
  (0 < x)%N -> 1 <= String.length (pretty_N_go x "").
Proof.
  intros Hx. rewrite pretty_N_go_snoc, length_append by exact Hx.
  simpl. lia.
Qed.

Lemma toString_digits (i : nat) : digits_only (JS.toString i) = true.
Proof.
  unfold JS.toString, pretty, pretty_nat, pretty, pretty_N.
  case_decide; [reflexivity|apply pretty_N_go_digits].
Qed.

Lemma toString_value (i : nat) :
  read_decimal 0 (JS.toString i) = N.of_nat i.
Proof.
  unfold JS.toString, pretty, pretty_nat, pretty, pretty_N.
  case_decide as H0; [rewrite H0; reflexivity|apply pretty_N_go_value].
Qed.

Lemma toString_length_lower (i : nat) : 1 <= String.length (JS.toString i).
Proof.
  unfold JS.toString, pretty, pretty_nat, pretty, pretty_N.
  case_decide as H0; [simpl; lia|apply pretty_N_go_nonempty; lia].
Qed.

Lemma toString_length_upper (k i : nat) :
  1 <= k -> i < 10 ^ k -> String.length (JS.toString i) <= k.
Proof.
  intros Hk Hi.
  unfold JS.toString, pretty, pretty_nat, pretty, pretty_N.
  case_decide as H0; [simpl; lia|].
  apply pretty_N_go_length.
  replace 10%N with (N.of_nat 10) by reflexivity.
  rewrite <- Nat2N.inj_pow. lia.
Qed.

End DecimalFacts.

(** ** The path of a page *)

Section ImagePath.


Lemma imagePath_cover : imagePath 0 = "individual_pages/page_000_cover.jpg".
Proof. reflexivity. Qed.

Lemma imagePath_numeric (i : nat) :
  1 <= i ->
  imagePath i = "individual_pages/page_" +:+ numeric_field i +:+ ".jpg".
Proof.
  intros Hi. unfold imagePath.
  rewrite bool_decide_eq_false_2 by lia. reflexivity.
Qed.

Lemma numeric_field_digits (i : nat) : digits_only (numeric_field i) = true.
Proof.
  unfold numeric_field.
  rewrite padStart_zero, digits_only_append, digits_only_zeros.
  apply toString_digits.
Qed.

Lemma numeric_field_value (i : nat) :
  read_decimal 0 (numeric_field i) = N.of_nat i.
Proof.
  unfold numeric_field.
  rewrite padStart_zero, read_decimal_append, read_decimal_zeros.
  apply toString_value.
Qed.

Lemma numeric_field_length (i : nat) :
  String.length (numeric_field i) = 3 `max` String.length (JS.toString i).
Proof. apply length_padStart_zero. Qed.

Lemma numeric_field_width (i : nat) :
  i < 1000 -> String.length (numeric_field i) = 3.
Proof.
  intros Hi. rewrite numeric_field_length.
  pose proof (toString_length_upper 3 i ltac:(lia) ltac:(simpl; lia)).
  lia.
Qed.

(** No numeric field is the cover's ["000_cover"]. *)
Lemma numeric_field_not_cover (i : nat) :
  numeric_field i +:+ ".jpg" <> "000_cover.jpg".
Proof.
  pose proof (numeric_field_digits i) as Hd.
  pose proof (numeric_field_length i) as Hl.
  destruct (numeric_field i) as [|a [|b [|c r]]]; simpl in Hl; try lia.
  rewrite !append_cons. intros [= -> -> -> Hr].
  destruct r as [|d r].
  - rewrite append_nil_l in Hr. discriminate.
  - rewrite append_cons in Hr. injection Hr as -> _.
    simpl in Hd. discriminate.
Qed.

Lemma imagePath_not_cover (i : nat) : 1 <= i -> imagePath i <> imagePath 0.
Proof.
  intros Hi. rewrite imagePath_numeric, imagePath_cover by exact Hi.
  change "individual_pages/page_000_cover.jpg"
    with ("individual_pages/page_" +:+ "000_cover.jpg").
  intros H. apply String.app_inj in H.
  exact (numeric_field_not_cover i H).
Qed.

(** Different pages have different paths. *)
Lemma imagePath_inj (i j : nat) : imagePath i = imagePath j -> i = j.
Proof.
  intros H.
  destruct (decide (i = 0)) as [->|Hi], (decide (j = 0)) as [->|Hj].
  - reflexivity.
  - symmetry in H. destruct (imagePath_not_cover j ltac:(lia) H).
  - destruct (imagePath_not_cover i ltac:(lia) H).
  - rewrite !imagePath_numeric in H by lia.
    apply String.app_inj, append_inv_tail in H.
    apply (f_equal (read_decimal 0)) in H.
    rewrite !numeric_field_value in H. lia.
Qed.

End ImagePath.

Example imagePath_1 : imagePath 1 = "individual_pages/page_001.jpg".
Proof. reflexivity. Qed.
Example imagePath_20 : imagePath 20 = "individual_pages/page_020.jpg".
Proof. reflexivity. Qed.
Example imagePath_1000 : imagePath 1000 = "individual_pages/page_1000.jpg".
Proof. vm_compute. reflexivity. Qed.
Example alt_of_cover : alt (new_img 0) = "Page 1".
Proof. reflexivity. Qed.

(** ** The promise of [loadImage] *)

(** The handlers are a few cases on the timer and the state. *)
Ltac by_promise_cases t s :=
  unfold deliver, onload, onerror, on_timeout, resolve, reject, clearTimeout;
  simpl; destruct t, s; simpl; congruence.

Section LoadImageFacts.
Variable br : Browser.
Variable img : Img.

Lemma deliver_at_rest (p : Promise) (a : Arrival) :
  at_rest p -> deliver br img p a = p.
Proof.
  intros [Hs Ht]. destruct p as [s t d]; simpl in *.
  destruct a as [[]|]; by_promise_cases t s.
Qed.

Lemma foldl_deliver_at_rest (p : Promise) (l : list Arrival) :
  at_rest p -> foldl (deliver br img) p l = p.
Proof.
  intros Hp. induction l as [|a l IH]; [reflexivity|].
  simpl. rewrite deliver_at_rest by exact Hp. exact IH.
Qed.

(** A settled promise keeps its state whatever arrives. *)
Lemma deliver_settled (p : Promise) (a : Arrival) :
  state p <> Pending -> state (deliver br img p a) = state p.
Proof.
  intros Hs. destruct p as [s t d]; simpl in *.
  destruct a as [[]|]; by_promise_cases t s.
Qed.

Lemma deliver_delay (p : Promise) (a : Arrival) :
  delay (deliver br img p a) = delay p.
Proof.
  destruct p as [s t d].
  destruct a as [[]|]; by_promise_cases t s.
Qed.

(** The settled promise, by cases on the image's fate. *)
Lemma settle_loadImage :
  settle br img (loadImage br img) =
  match complete (fate br (src img)), early (fate br (src img)) with
  | true, _ => mkPromise Fulfilled Cleared 30000
  | false, Onload :: _ => mkPromise Fulfilled Cleared 30000
  | false, Onerror :: _ =>
      mkPromise (Rejected (failure_error br img)) Cleared 30000
  | false, [] => mkPromise (Rejected (timeout_error br img)) Fired 30000
  end.
Proof.
  unfold settle, loadImage, arrivals.
  destruct (fate br (src img)) as [c e l]; simpl.
  destruct c.
  - apply foldl_deliver_at_rest. split; discriminate.
  - destruct e as [|[] e]; simpl;
      (rewrite foldl_deliver_at_rest; [reflexivity|split; discriminate]).
Qed.

Lemma settle_loadImage_settled :
  state (settle br img (loadImage br img)) <> Pending.
Proof.
  rewrite settle_loadImage.
  destruct (complete _); [discriminate|].
  destruct (early _) as [|[] ?]; discriminate.
Qed.

End LoadImageFacts.

(** C3: loadImage sets its timer to 30000 ms; the promise is fulfilled
    at once when the image is already complete, and otherwise by the first
    thing to arrive: fulfilled by the load signal, rejected with the
    load-failure error by the error signal, rejected with the timeout error
    when the timer comes due before any signal.  What arrives later changes
    nothing, and the timer is cleared on every settlement that is not the
    timer's own. *)
Theorem loadImage_contract (br : Browser) (img : Img) :
  let f := fate br (src img) in
  let p0 := loadImage br img in
  let p := settle br img p0 in
  delay p0 = 30000%Z /\
  state p0 = (if complete f then Fulfilled else Pending) /\
  timer p0 = (if complete f then Cleared else Armed) /\
  state p =
    match complete f, early f with
    | true, _ => Fulfilled
    | false, Onload :: _ => Fulfilled
    | false, Onerror :: _ =>
        Rejected (JS.mkError ("Failed to load image: "
                                +:+ absolute br (src img)))
    | false, [] =>
        Rejected (JS.mkError ("Image load timeout: "
                                +:+ absolute br (src img)))
    end /\
  timer p =
    match complete f, early f with
    | false, [] => Fired
    | _, _ => Cleared
    end /\
  (forall (q : Promise) (l : list Arrival),
     state (foldl (deliver br img) (resolve q) l) = state (resolve q)) /\
  (forall (q : Promise) (e : JS.Error) (l : list Arrival),
     state (foldl (deliver br img) (reject e q) l) = state (reject e q)).
Proof.
  intros f p0 p. subst p p0 f.
  rewrite settle_loadImage. unfold loadImage.
  destruct (fate br (src img)) as [c e l]; simpl.
  repeat split.
  - destruct c; reflexivity.
  - destruct c; reflexivity.
  - destruct c; reflexivity.
  - destruct c; [reflexivity|]. destruct e as [|[] ?]; reflexivity.
  - destruct c; [reflexivity|]. destruct e as [|[] ?]; reflexivity.
  - intros q l0. induction l0 as [|a l0 IH] using rev_ind; [reflexivity|].
    rewrite foldl_app. simpl. rewrite deliver_settled; [exact IH|].
    rewrite IH. unfold resolve. destruct (state q) eqn:E; simpl; congruence.
  - intros q e0 l0. induction l0 as [|a l0 IH] using rev_ind; [reflexivity|].
    rewrite foldl_app. simpl. rewrite deliver_settled; [exact IH|].
    rewrite IH. unfold reject. destruct (state q) eqn:E; simpl; congruence.
Qed.

(** ** The preload loop *)

Section CreatePages.
Variable br : Browser.

Lemma advance_nil (b : TurnJSBook) : advance [] [] b = b.
Proof.
  destruct b. unfold advance, with_actions, with_flipbook; simpl.
  rewrite !app_nil_r. reflexivity.
Qed.

Lemma advance_advance (p1 p2 : list Element) (a1 a2 : list Action)
    (b : TurnJSBook) :
  advance p2 a2 (advance p1 a1 b) = advance (p1 ++ p2) (a1 ++ a2) b.
Proof.
  unfold advance, with_actions, with_flipbook; simpl.
  rewrite !app_assoc. reflexivity.
Qed.

(** An iteration whose load is fulfilled appends its page. *)
Lemma createPages_step_fulfilled (i : nat) (b : TurnJSBook) :
  state (loaded br i) = Fulfilled ->
  createPages_step br i b
  = (Normal tt, advance [page_of i] (page_trace br i) b).
Proof.
  intros Hok. unfold createPages_step, bind, record, modify, await.
  fold (loaded br i). rewrite Hok. simpl.
  unfold advance, page_trace, with_actions, with_flipbook; simpl.
  rewrite <- !app_assoc. reflexivity.
Qed.

(** An iteration whose load is rejected throws before it appends. *)
Lemma createPages_step_rejected (i : nat) (e : JS.Error) (b : TurnJSBook) :
  state (loaded br i) = Rejected e ->
  createPages_step br i b = (Throws e, advance [] (failed_trace br i) b).
Proof.
  intros Hko. unfold createPages_step, bind, record, modify, await.
  fold (loaded br i). rewrite Hko. simpl.
  unfold advance, failed_trace, with_actions, with_flipbook; simpl.
  rewrite <- !app_assoc, app_nil_r. reflexivity.
Qed.

(** The pages and the actions of the iterations [i], ..., [i + n - 1]. *)
Lemma createPages_from_fulfilled (n i : nat) (b : TurnJSBook) :
  (forall j, i <= j < i + n -> state (loaded br j) = Fulfilled) ->
  createPages_from br n i b =
  (Normal tt,
   advance (page_of <$> seq i n) (mjoin (page_trace br <$> seq i n)) b).
Proof.
  revert i b. induction n as [|n IH]; intros i b Hok.
  - simpl. rewrite advance_nil. reflexivity.
  - simpl. unfold bind at 1.
    rewrite createPages_step_fulfilled by (apply Hok; lia).
    rewrite IH by (intros j Hj; apply Hok; lia).
    rewrite advance_advance. reflexivity.
Qed.

(** The loop stops at the first rejected load, at distance [k] from where
    it stands. *)
Lemma createPages_from_rejected (n i k : nat) (e : JS.Error) (b : TurnJSBook) :
  k < n ->
  (forall j, i <= j < i + k -> state (loaded br j) = Fulfilled) ->
  state (loaded br (i + k)) = Rejected e ->
  createPages_from br n i b =
  (Throws e,
   advance (page_of <$> seq i k)
           (mjoin (page_trace br <$> seq i k) ++ failed_trace br (i + k)) b).
Proof.
  revert i k b. induction n as [|n IH]; intros i k b Hk Hok Hko; [lia|].
  simpl. unfold bind at 1. destruct k as [|k].
  - rewrite Nat.add_0_r in Hko.
    rewrite (createPages_step_rejected _ e) by exact Hko.
    rewrite Nat.add_0_r. reflexivity.
  - rewrite createPages_step_fulfilled by (apply Hok; lia).
    rewrite (IH (S i) k) by
      (first [lia | (intros j Hj; apply Hok; lia)
             | (replace (S i + k) with (i + S k) by lia; exact Hko)]).
    rewrite advance_advance.
    replace (S i + k) with (i + S k) by lia.
    rewrite app_assoc. reflexivity.
Qed.

(** No iteration waits for ever: the timer sees to it. *)
Lemma createPages_step_returns (i : nat) (b : TurnJSBook) :
  (createPages_step br i b).1 <> Suspended.
Proof.
  pose proof (settle_loadImage_settled br (new_img i)) as Hs.
  fold (loaded br i) in Hs.
  destruct (state (loaded br i)) as [| |e] eqn:E; [congruence| |].
  - rewrite createPages_step_fulfilled by exact E. discriminate.
  - rewrite (createPages_step_rejected _ e) by exact E. discriminate.
Qed.

Lemma createPages_from_returns (n i : nat) (b : TurnJSBook) :
  (createPages_from br n i b).1 <> Suspended.
Proof.
  revert i b. induction n as [|n IH]; intros i b; [discriminate|].
  simpl. unfold bind at 1.
  pose proof (createPages_step_returns i b) as Hs.
  destruct (createPages_step br i b) as [[[]|e|] b']; simpl in *;
    [apply IH|discriminate|congruence].
Qed.

Lemma createPages_returns (b : TurnJSBook) :
  (createPages br b).1 <> Suspended.
Proof. apply createPages_from_returns. Qed.

End CreatePages.

(** ** What the record of actions holds *)

Section Traces.
Variable br : Browser.

Lemma requested_in_page_traces (i n j : nat) :
  Requested (imagePath j) ∈ mjoin (page_trace br <$> seq i n)
  <-> i <= j < i + n.
Proof.
  rewrite list_elem_of_join. split.
  - intros (t & Hj & Ht). apply list_elem_of_fmap in Ht as (k & -> & Hk).
    apply elem_of_seq in Hk. unfold page_trace in Hj.
    rewrite !elem_of_cons, elem_of_nil in Hj.
    destruct Hj as [[= Hj]|[Hj|[Hj|[]]]]; try discriminate.
    apply imagePath_inj in Hj. lia.
  - intros Hj. exists (page_trace br j). split.
    + unfold page_trace. apply elem_of_cons. left. reflexivity.
    + apply list_elem_of_fmap. exists j. split; [reflexivity|].
      apply elem_of_seq. lia.
Qed.

Lemma appended_in_page_traces (i n j : nat) :
  Appended (imagePath j) ∈ mjoin (page_trace br <$> seq i n)
  <-> i <= j < i + n.
Proof.
  rewrite list_elem_of_join. split.
  - intros (t & Hj & Ht). apply list_elem_of_fmap in Ht as (k & -> & Hk).
    apply elem_of_seq in Hk. unfold page_trace in Hj.
    rewrite !elem_of_cons, elem_of_nil in Hj.
    destruct Hj as [Hj|[Hj|[[= Hj]|[]]]]; try discriminate.
    apply imagePath_inj in Hj. lia.
  - intros Hj. exists (page_trace br j). split.
    + unfold page_trace. rewrite !elem_of_cons. right. right. left.
      reflexivity.
    + apply list_elem_of_fmap. exists j. split; [reflexivity|].
      apply elem_of_seq. lia.
Qed.

Lemma requested_in_failed_trace (i j : nat) :
  Requested (imagePath j) ∈ failed_trace br i <-> j = i.
Proof.
  unfold failed_trace. rewrite !elem_of_cons, elem_of_nil. split.
  - intros [[= Hj]|[Hj|[]]]; [|discriminate].
    apply imagePath_inj in Hj. exact Hj.
  - intros ->. left. reflexivity.
Qed.

Lemma appended_in_failed_trace (i j : nat) :
  Appended (imagePath j) ∉ failed_trace br i.
Proof.
  unfold failed_trace. rewrite !elem_of_cons, elem_of_nil.
  intros [Hj|[Hj|[]]]; discriminate.
Qed.

End Traces.

(** C2: when every image load is fulfilled, createPages returns normally
    and has appended exactly the N pages of index 0, 1, ..., N - 1 to the
    container, in that order, after whatever the container held; the record
    of actions shows, page after page, the image requested, its promise
    settled, and only then its page appended, the next request coming after
    that. *)
Theorem createPages_appends_in_order (br : Browser) (b : TurnJSBook) (N : nat) :
  totalPages b = Z.of_nat N ->
  (forall i, i < N -> state (loaded br i) = Fulfilled) ->
  let r := createPages br b in
  r.1 = Normal tt /\
  flipbook r.2 = flipbook b ++ (page_of <$> seq 0 N) /\
  length (flipbook r.2) = length (flipbook b) + N /\
  (forall i, i < N ->
     flipbook r.2 !! (length (flipbook b) + i) = Some (page_of i) /\
     src <$> content (page_of i) = [imagePath i]) /\
  actions r.2 =
    actions b ++
    mjoin ((fun i => [Requested (imagePath i);
                      Settled (imagePath i) (loaded br i);
                      Appended (imagePath i)]) <$> seq 0 N) /\
  (flipbook b = [] -> flipbook r.2 = page_of <$> seq 0 N).
Proof.
  intros HN Hok r. subst r. unfold createPages.
  rewrite HN, Nat2Z.id.
  rewrite createPages_from_fulfilled by (intros j Hj; apply Hok; lia).
  simpl. repeat split.
  - rewrite length_app, length_fmap, length_seq. reflexivity.
  - rewrite lookup_app_r by lia.
    replace (length (flipbook b) + i - length (flipbook b)) with i by lia.
    rewrite list_lookup_fmap, lookup_seq_lt by lia. reflexivity.
  - intros ->. reflexivity.
Qed.

(** ** [init] when a load is rejected *)

Section InitFailure.
Variable br : Browser.

Lemma createPages_rejected (b : TurnJSBook) (N i : nat) (e : JS.Error) :
  totalPages b = Z.of_nat N -> i < N ->
  (forall j, j < i -> state (loaded br j) = Fulfilled) ->
  state (loaded br i) = Rejected e ->
  createPages br b =
  (Throws e,
   advance (page_of <$> seq 0 i)
           (mjoin (page_trace br <$> seq 0 i) ++ failed_trace br i) b).
Proof.
  intros HN Hi Hok Hko. unfold createPages. rewrite HN, Nat2Z.id.
  apply (createPages_from_rejected br N 0 i e b Hi).
  - intros j Hj. apply Hok. lia.
  - exact Hko.
Qed.

(** [init] catches what [createPages] throws and shows it; the widget is
    not started and nothing is bound. *)
Lemma init_preload_rejected (b : TurnJSBook) (N i : nat) (e : JS.Error) :
  totalPages b = Z.of_nat N -> i < N ->
  (forall j, j < i -> state (loaded br j) = Fulfilled) ->
  state (loaded br i) = Rejected e ->
  init br b =
  showError e
    (advance (page_of <$> seq 0 i)
             (mjoin (page_trace br <$> seq 0 i) ++ failed_trace br i)
             (showLoading b).2).
Proof.
  intros HN Hi Hok Hko. unfold init, try_catch.
  unfold bind at 1. unfold showLoading at 1, modify at 1.
  unfold bind at 1.
  rewrite (createPages_rejected _ N i e) by (try assumption; exact HN).
  reflexivity.
Qed.

End InitFailure.

(** C4: when the load of page i is rejected (every earlier one having been
    fulfilled), createPages throws that error with the pages 0, ..., i - 1
    appended and no other; images were requested for the indices up to i and
    for none after; init catches the error and shows its message, starts no
    widget, leaves the ready flag as it was (false after the constructor)
    and binds no handler. *)
Theorem first_rejected_load_aborts (br : Browser) (b : TurnJSBook)
    (N i : nat) (e : JS.Error) :
  totalPages b = Z.of_nat N -> i < N ->
  (forall j, j < i -> state (loaded br j) = Fulfilled) ->
  state (loaded br i) = Rejected e ->
  let r := createPages br b in
  let r' := init br b in
  r.1 = Throws e /\
  flipbook r.2 = flipbook b ++ (page_of <$> seq 0 i) /\
  (exists acts,
     actions r.2 = actions b ++ acts /\
     (forall j, Requested (imagePath j) ∈ acts <-> j <= i) /\
     (forall j, Appended (imagePath j) ∈ acts <-> j < i) /\
     (forall o, TurnInit o ∉ acts)) /\
  r'.1 = Normal tt /\
  loading_text (loadingElement r'.2) =
    "Error: " +:+ JS.message e +:+ ". Check console for details." /\
  flipbook r'.2 = flipbook r.2 /\
  actions r'.2 = actions r.2 /\
  turn r'.2 = turn b /\
  isLoaded r'.2 = isLoaded b /\
  listeners r'.2 = listeners b /\
  (isLoaded b = false -> isLoaded r'.2 = false) /\
  (listeners b = [] -> listeners r'.2 = []).
Proof.
  intros HN Hi Hok Hko r r'. subst r r'.
  rewrite (init_preload_rejected br b N i e HN Hi Hok Hko).
  rewrite (createPages_rejected br b N i e HN Hi Hok Hko).
  simpl. repeat split; try (intros ->; reflexivity).
  eexists. split; [reflexivity|]. repeat split.
  - rewrite elem_of_app, requested_in_page_traces,
      requested_in_failed_trace. lia.
  - rewrite elem_of_app, requested_in_page_traces,
      requested_in_failed_trace. lia.
  - rewrite elem_of_app, appended_in_page_traces.
    intros [?|H]; [lia|]. destruct (appended_in_failed_trace br i j H).
  - rewrite elem_of_app, appended_in_page_traces. intros ?. left. lia.
  - intros o. rewrite elem_of_app, list_elem_of_join.
    intros [(t & Ho & Ht)|Ho].
    + apply list_elem_of_fmap in Ht as (k & -> & _). unfold page_trace in Ho.
      rewrite !elem_of_cons, elem_of_nil in Ho.
      destruct Ho as [?|[?|[?|[]]]]; discriminate.
    + unfold failed_trace in Ho. rewrite !elem_of_cons, elem_of_nil in Ho.
      destruct Ho as [?|[?|[]]]; discriminate.
Qed.

(** ** jQuery selections *)

Section Selections.

Lemma hasClass_addClass (c c' : string) (e : Element) :
  jQuery.hasClass c' (jQuery.addClass c e)
  = bool_decide (c' = c) || jQuery.hasClass c' e.
Proof.
  unfold jQuery.addClass, jQuery.hasClass.
  destruct (bool_decide (c ∈ classes e)) eqn:Hc; simpl.
  - apply bool_decide_eq_true in Hc.
    destruct (bool_decide (c' = c)) eqn:E; [|reflexivity].
    apply bool_decide_eq_true in E. subst c'.
    simpl. apply bool_decide_eq_true. exact Hc.
  - apply eq_true_iff_eq.
    rewrite orb_true_iff, !bool_decide_eq_true, elem_of_app,
      list_elem_of_singleton.
    tauto.
Qed.

Lemma hasClass_removeClass (cs : list string) (c' : string) (e : Element) :
  jQuery.hasClass c' (jQuery.removeClass cs e)
  = bool_decide (c' ∉ cs) && jQuery.hasClass c' e.
Proof.
  unfold jQuery.removeClass, jQuery.hasClass; simpl.
  apply eq_true_iff_eq.
  rewrite andb_true_iff, !bool_decide_eq_true, list_elem_of_filter.
  tauto.
Qed.

Lemma removeClass_addClass (cs : list string) (c : string) (e : Element) :
  c ∈ cs ->
  jQuery.removeClass cs (jQuery.addClass c e) = jQuery.removeClass cs e.
Proof.
  intros Hc. unfold jQuery.addClass. destruct (jQuery.hasClass c e);
    [reflexivity|].
  unfold jQuery.removeClass; simpl. f_equal.
  rewrite filter_app, filter_cons_False by (intros H; apply H, Hc).
  rewrite filter_nil, app_nil_r. reflexivity.
Qed.

Lemma removeClass_idemp (cs : list string) (e : Element) :
  jQuery.removeClass cs (jQuery.removeClass cs e) = jQuery.removeClass cs e.
Proof.
  unfold jQuery.removeClass; simpl. f_equal.
  rewrite list_filter_filter. apply list_filter_iff. tauto.
Qed.

Lemma length_each (f : Element -> Element) (sel : jQuery.Selection)
    (dom : list Element) :
  length (jQuery.each f sel dom) = length dom.
Proof. apply length_imap. Qed.

Lemma lookup_each (f : Element -> Element) (sel : jQuery.Selection)
    (dom : list Element) (pos : nat) :
  jQuery.each f sel dom !! pos
  = (fun e => if bool_decide (pos ∈ sel) then f e else e) <$> dom !! pos.
Proof. unfold jQuery.each. apply list_lookup_imap. Qed.

Lemma elem_of_find (c : string) (dom : list Element) (pos : nat) :
  pos ∈ jQuery.find c dom
  <-> exists e, dom !! pos = Some e /\ jQuery.hasClass c e = true.
Proof.
  unfold jQuery.find. rewrite list_elem_of_filter, elem_of_seq. split.
  - intros [Hc Hpos]. destruct (dom !! pos) as [e|] eqn:E; simpl in Hc.
    + exists e. split; [reflexivity|]. destruct (jQuery.hasClass c e);
        [reflexivity|destruct Hc].
    + destruct Hc.
  - intros (e & He & Hc). rewrite He. simpl. rewrite Hc. split; [exact I|].
    apply lookup_lt_Some in He. lia.
Qed.

Lemma NoDup_find (c : string) (dom : list Element) :
  NoDup (jQuery.find c dom).
Proof. apply NoDup_filter, NoDup_seq. Qed.

(** A method that leaves the class [c] alone leaves [find(c)] alone. *)
Lemma find_each (c : string) (f : Element -> Element)
    (sel : jQuery.Selection) (dom : list Element) :
  (forall e, jQuery.hasClass c (f e) = jQuery.hasClass c e) ->
  jQuery.find c (jQuery.each f sel dom) = jQuery.find c dom.
Proof.
  intros Hf. unfold jQuery.find. rewrite length_each.
  apply list_filter_iff. intros pos. rewrite lookup_each.
  destruct (dom !! pos) as [e|]; simpl; [|tauto].
  case_bool_decide; [rewrite Hf|]; tauto.
Qed.

(** [eq(i)] holds the node of rank [eq_index i] and no other. *)
Lemma elem_of_eq (i : Z) (sel : jQuery.Selection) (pos : nat) :
  pos ∈ jQuery.eq i sel
  <-> exists k, sel !! k = Some pos /\ Z.of_nat k = eq_index i (length sel).
Proof.
  unfold jQuery.eq, eq_index.
  set (j := if bool_decide (i < 0)%Z then (i + Z.of_nat (length sel))%Z else i).
  case_bool_decide as Hj.
  - destruct (sel !! Z.to_nat j) as [p|] eqn:E.
    + rewrite list_elem_of_singleton. split.
      * intros ->. exists (Z.to_nat j). split; [exact E|lia].
      * intros (k & Hk & Hkj). replace k with (Z.to_nat j) in Hk by lia.
        congruence.
    + apply lookup_ge_None in E. lia.
  - rewrite elem_of_nil. split; [tauto|].
    intros (k & Hk & Hkj). apply lookup_lt_Some in Hk. lia.
Qed.

Lemma eq_subseteq (i : Z) (sel : jQuery.Selection) (pos : nat) :
  pos ∈ jQuery.eq i sel -> pos ∈ sel.
Proof.
  rewrite elem_of_eq. intros (k & Hk & _).
  apply list_elem_of_lookup. exists k. exact Hk.
Qed.

End Selections.

(** ** The shadows after [updatePageShadows] *)

Section Shadows.

Lemma each_nil (f : Element -> Element) (dom : list Element) :
  jQuery.each f [] dom = dom.
Proof.
  apply list_eq. intros pos. rewrite lookup_each.
  destruct (dom !! pos); reflexivity.
Qed.

Lemma find_page_removeClass (sel : jQuery.Selection) (dom : list Element) :
  jQuery.find "page" (jQuery.each (jQuery.removeClass shadow_classes) sel dom)
  = jQuery.find "page" dom.
Proof.
  apply find_each. intros e. rewrite hasClass_removeClass. reflexivity.
Qed.

Lemma find_page_addClass (c : string) (sel : jQuery.Selection)
    (dom : list Element) :
  c <> "page" ->
  jQuery.find "page" (jQuery.each (jQuery.addClass c) sel dom)
  = jQuery.find "page" dom.
Proof.
  intros Hc. apply find_each. intros e. rewrite hasClass_addClass.
  rewrite bool_decide_eq_false_2 by congruence. reflexivity.
Qed.

Lemma view_of_with_flipbook (v : list Element) (b : TurnJSBook) :
  view_of (with_flipbook v b) = view_of b.
Proof. reflexivity. Qed.

(** The three jQuery calls [updatePageShadows] amounts to: the shadow
    classes removed from every page, the left shadow added to the left
    targets, the right shadow to the right targets. *)
Lemma updatePageShadows_calls (page : Z) (b : TurnJSBook) :
  let dom := flipbook b in
  let sel := jQuery.find "page" dom in
  updatePageShadows page b =
  with_flipbook
    (jQuery.each (jQuery.addClass "right-shadow")
       (right_targets page (view_of b) sel)
       (jQuery.each (jQuery.addClass "left-shadow")
          (left_targets page (view_of b) sel)
          (jQuery.each (jQuery.removeClass shadow_classes) sel dom))) b.
Proof.
  intros dom sel. unfold updatePageShadows.
  fold dom. fold sel. fold shadow_classes.
  rewrite view_of_with_flipbook.
  unfold left_targets, right_targets.
  destruct (view_of b) as [[|v0 [|v1 vs]]|]; unfold shade;
    repeat case_bool_decide; simpl;
    rewrite ?each_nil, ?find_page_addClass, ?find_page_removeClass
      by discriminate;
    reflexivity.
Qed.

Lemma left_targets_subseteq (page : Z) (view : option (list Z))
    (sel : jQuery.Selection) (pos : nat) :
  pos ∈ left_targets page view sel -> pos ∈ sel.
Proof.
  unfold left_targets.
  destruct view as [[|v0 [|v1 vs]]|]; repeat case_bool_decide;
    rewrite ?elem_of_nil; try tauto; apply eq_subseteq.
Qed.

Lemma right_targets_subseteq (page : Z) (view : option (list Z))
    (sel : jQuery.Selection) (pos : nat) :
  pos ∈ right_targets page view sel -> pos ∈ sel.
Proof.
  unfold right_targets.
  destruct view as [[|v0 [|v1 vs]]|]; repeat case_bool_decide;
    rewrite ?elem_of_nil; try tauto; apply eq_subseteq.
Qed.

(** In a selection without repetition, being the target of [eq] is a
    matter of rank. *)
Lemma elem_of_eq_rank (i : Z) (sel : jQuery.Selection) (k pos : nat) :
  NoDup sel -> sel !! k = Some pos ->
  pos ∈ jQuery.eq i sel <-> Z.of_nat k = eq_index i (length sel).
Proof.
  intros Hnd Hk. rewrite elem_of_eq. split.
  - intros (k' & Hk' & Hi).
    rewrite (NoDup_lookup sel k k' pos Hnd Hk Hk'). exact Hi.
  - intros Hi. exists k. split; assumption.
Qed.

Lemma left_targets_rank (page : Z) (view : option (list Z))
    (sel : jQuery.Selection) (k pos : nat) :
  NoDup sel -> sel !! k = Some pos ->
  bool_decide (pos ∈ left_targets page view sel)
  = left_shadow_at page view (length sel) k.
Proof.
  intros Hnd Hk. unfold left_targets, left_shadow_at.
  pose proof (fun i => elem_of_eq_rank i sel k pos Hnd Hk) as Hrank.
  destruct view as [[|v0 [|v1 vs]]|];
    try (apply bool_decide_eq_false_2, not_elem_of_nil);
    apply bool_decide_ext.
  - destruct (decide (page = 1%Z)) as [Hp|Hp].
    + rewrite bool_decide_eq_true_2 by exact Hp. rewrite elem_of_nil. tauto.
    + rewrite bool_decide_eq_false_2 by exact Hp. rewrite Hrank. tauto.
  - destruct (decide (page > 1 /\ v0 - 1 >= 0)%Z) as [Hg|Hg].
    + rewrite bool_decide_eq_true_2 by exact Hg. rewrite Hrank.
      unfold eq_index. rewrite bool_decide_eq_false_2 by lia. tauto.
    + rewrite bool_decide_eq_false_2 by exact Hg. rewrite elem_of_nil. lia.
Qed.

Lemma right_targets_rank (page : Z) (view : option (list Z))
    (sel : jQuery.Selection) (k pos : nat) :
  NoDup sel -> sel !! k = Some pos ->
  bool_decide (pos ∈ right_targets page view sel)
  = right_shadow_at page view (length sel) k.
Proof.
  intros Hnd Hk. unfold right_targets, right_shadow_at.
  pose proof (fun i => elem_of_eq_rank i sel k pos Hnd Hk) as Hrank.
  destruct view as [[|v0 [|v1 vs]]|];
    try (apply bool_decide_eq_false_2, not_elem_of_nil);
    apply bool_decide_ext.
  - destruct (decide (page = 1%Z)) as [Hp|Hp].
    + rewrite bool_decide_eq_true_2 by exact Hp. rewrite Hrank. tauto.
    + rewrite bool_decide_eq_false_2 by exact Hp. rewrite elem_of_nil. tauto.
  - destruct (decide (v1 - 1 >= 0)%Z) as [Hg|Hg].
    + rewrite bool_decide_eq_true_2 by exact Hg. rewrite Hrank.
      unfold eq_index. rewrite bool_decide_eq_false_2 by lia. tauto.
    + rewrite bool_decide_eq_false_2 by exact Hg. rewrite elem_of_nil. lia.
Qed.

(** Only [#flipbook] changes. *)
Lemma updatePageShadows_frame (page : Z) (b : TurnJSBook) :
  updatePageShadows page b
  = with_flipbook (flipbook (updatePageShadows page b)) b.
Proof. rewrite updatePageShadows_calls. reflexivity. Qed.

Lemma find_page_updatePageShadows (page : Z) (b : TurnJSBook) :
  jQuery.find "page" (flipbook (updatePageShadows page b))
  = jQuery.find "page" (flipbook b).
Proof.
  rewrite updatePageShadows_calls. simpl.
  rewrite !find_page_addClass by discriminate.
  apply find_page_removeClass.
Qed.

Lemma view_of_updatePageShadows (page : Z) (b : TurnJSBook) :
  view_of (updatePageShadows page b) = view_of b.
Proof. rewrite updatePageShadows_frame. reflexivity. Qed.

(** Node by node: a page is repainted, any other node is left alone. *)
Lemma lookup_updatePageShadows (page : Z) (b : TurnJSBook) (pos : nat) :
  let sel := jQuery.find "page" (flipbook b) in
  flipbook (updatePageShadows page b) !! pos
  = (fun e =>
       if bool_decide (pos ∈ sel)
       then repaint (bool_decide (pos ∈ left_targets page (view_of b) sel))
                    (bool_decide (pos ∈ right_targets page (view_of b) sel))
                    e
       else e) <$> flipbook b !! pos.
Proof.
  intros sel. rewrite updatePageShadows_calls. simpl.
  rewrite !lookup_each. fold sel.
  destruct (flipbook b !! pos) as [e|]; [|reflexivity]. simpl. f_equal.
  pose proof (left_targets_subseteq page (view_of b) sel pos) as HL.
  pose proof (right_targets_subseteq page (view_of b) sel pos) as HR.
  unfold repaint.
  destruct (bool_decide (pos ∈ sel)) eqn:Hs.
  - repeat case_bool_decide; reflexivity.
  - apply bool_decide_eq_false in Hs.
    rewrite !bool_decide_eq_false_2 by tauto. reflexivity.
Qed.

(** Page by page, by rank. *)
Lemma nth_page_updatePageShadows (page : Z) (b : TurnJSBook) (k : nat) :
  nth_page k (flipbook (updatePageShadows page b))
  = repaint (left_shadow_at page (view_of b) (page_count b) k)
            (right_shadow_at page (view_of b) (page_count b) k)
      <$> nth_page k (flipbook b).
Proof.
  unfold nth_page, page_count. rewrite find_page_updatePageShadows.
  destruct (jQuery.find "page" (flipbook b) !! k) as [pos|] eqn:Hk;
    [|reflexivity].
  simpl. rewrite lookup_updatePageShadows.
  rewrite (bool_decide_eq_true_2 (pos ∈ _))
    by (apply list_elem_of_lookup; exists k; exact Hk).
  rewrite (left_targets_rank _ _ _ k) by (try apply NoDup_find; exact Hk).
  rewrite (right_targets_rank _ _ _ k) by (try apply NoDup_find; exact Hk).
  reflexivity.
Qed.

Lemma hasClass_left_repaint (l r : bool) (e : Element) :
  jQuery.hasClass "left-shadow" (repaint l r e) = l.
Proof.
  unfold repaint. destruct l, r;
    rewrite ?hasClass_addClass, hasClass_removeClass; reflexivity.
Qed.

Lemma hasClass_right_repaint (l r : bool) (e : Element) :
  jQuery.hasClass "right-shadow" (repaint l r e) = r.
Proof.
  unfold repaint. destruct l, r;
    rewrite ?hasClass_addClass, hasClass_removeClass; reflexivity.
Qed.

Lemma hasClass_other_repaint (c : string) (l r : bool) (e : Element) :
  c ∉ shadow_classes ->
  jQuery.hasClass c (repaint l r e) = jQuery.hasClass c e.
Proof.
  intros Hc. unfold repaint.
  assert (c <> "left-shadow" /\ c <> "right-shadow") as [H1 H2].
  { unfold shadow_classes in Hc. rewrite !elem_of_cons, elem_of_nil in Hc.
    tauto. }
  destruct l, r; rewrite ?hasClass_addClass, hasClass_removeClass;
    rewrite ?(bool_decide_eq_false_2 (c = _)) by assumption;
    rewrite bool_decide_eq_true_2 by exact Hc; reflexivity.
Qed.

Lemma content_repaint (l r : bool) (e : Element) :
  content (repaint l r e) = content e.
Proof.
  unfold repaint, jQuery.addClass.
  destruct l, r; simpl; repeat case_match; reflexivity.
Qed.

Lemma repaint_repaint (l r l' r' : bool) (e : Element) :
  repaint l r (repaint l' r' e) = repaint l r e.
Proof.
  unfold repaint at 1 3. f_equal. f_equal. unfold repaint.
  destruct l', r';
    rewrite ?removeClass_addClass, removeClass_idemp;
    first [reflexivity
          | (unfold shadow_classes; rewrite !elem_of_cons; tauto)].
Qed.

(** The class list of a repainted node: the classes it had, the shadow
    classes taken out, then the shadow classes it is given, once each. *)
Lemma classes_repaint (l r : bool) (e : Element) :
  classes (repaint l r e)
  = filter (fun c => c ∉ ["left-shadow"; "right-shadow"]) (classes e)
      ++ (if l then ["left-shadow"] else [])
      ++ (if r then ["right-shadow"] else []).
Proof.
  unfold repaint.
  assert (jQuery.hasClass "left-shadow"
            (jQuery.removeClass shadow_classes e) = false) as Hl
    by (rewrite hasClass_removeClass; reflexivity).
  assert (jQuery.hasClass "right-shadow"
            (jQuery.removeClass shadow_classes e) = false) as Hr
    by (rewrite hasClass_removeClass; reflexivity).
  assert (jQuery.hasClass "right-shadow"
            (jQuery.addClass "left-shadow"
               (jQuery.removeClass shadow_classes e)) = false) as Hlr
    by (rewrite hasClass_addClass, Hr; reflexivity).
  destruct l, r.
  - unfold jQuery.addClass at 1. rewrite Hlr.
    unfold jQuery.addClass. rewrite Hl. simpl.
    rewrite <- app_assoc. reflexivity.
  - unfold jQuery.addClass. rewrite Hl. simpl. reflexivity.
  - unfold jQuery.addClass. rewrite Hr. simpl. reflexivity.
  - simpl. rewrite app_nil_r. reflexivity.
Qed.

End Shadows.

(** ** The shadow rule *)

Section ShadowRule.

Lemma nth_page_lt (k : nat) (b : TurnJSBook) :
  k < page_count b -> exists e, nth_page k (flipbook b) = Some e.
Proof.
  intros Hk. unfold nth_page, page_count in *.
  destruct (lookup_lt_is_Some_2 _ _ Hk) as [pos Hpos]. rewrite Hpos. simpl.
  assert (pos ∈ jQuery.find "page" (flipbook b)) as Hin
    by (apply list_elem_of_lookup; exists k; exact Hpos).
  apply elem_of_find in Hin as (e & He & _). exists e. exact He.
Qed.

Lemma nth_page_ge (k : nat) (b : TurnJSBook) :
  page_count b <= k -> nth_page k (flipbook b) = None.
Proof.
  intros Hk. unfold nth_page, page_count in *.
  rewrite (lookup_ge_None_2 _ _ Hk). reflexivity.
Qed.

(** The shadows of every page after [updatePageShadows], whatever they
    were before. *)
Lemma page_shadows_updatePageShadows (page : Z) (b : TurnJSBook) (k : nat) :
  k < page_count b ->
  page_shadows k (updatePageShadows page b)
  = Some (left_shadow_at page (view_of b) (page_count b) k,
          right_shadow_at page (view_of b) (page_count b) k).
Proof.
  intros Hk. unfold page_shadows. rewrite nth_page_updatePageShadows.
  destruct (nth_page_lt k b Hk) as [e ->]. simpl.
  rewrite hasClass_left_repaint, hasClass_right_repaint. reflexivity.
Qed.

Lemma page_count_updatePageShadows (page : Z) (b : TurnJSBook) :
  page_count (updatePageShadows page b) = page_count b.
Proof. unfold page_count. rewrite find_page_updatePageShadows. reflexivity. Qed.

Lemma updatePageShadows_idemp (page : Z) (b : TurnJSBook) :
  updatePageShadows page (updatePageShadows page b) = updatePageShadows page b.
Proof.
  rewrite (updatePageShadows_frame page (updatePageShadows page b)).
  assert (flipbook (updatePageShadows page (updatePageShadows page b))
          = flipbook (updatePageShadows page b)) as ->;
    [|rewrite (updatePageShadows_frame page b); reflexivity].
  apply list_eq. intros pos.
  rewrite (lookup_updatePageShadows page (updatePageShadows page b)).
  rewrite find_page_updatePageShadows, view_of_updatePageShadows.
  rewrite lookup_updatePageShadows.
  destruct (flipbook b !! pos) as [e|]; [|reflexivity]. simpl. f_equal.
  case_bool_decide; [apply repaint_repaint|reflexivity].
Qed.

Lemma updatePageShadows_clear_shadows (page : Z) (b : TurnJSBook) :
  updatePageShadows page (clear_shadows b) = updatePageShadows page b.
Proof.
  rewrite (updatePageShadows_frame page (clear_shadows b)).
  rewrite (updatePageShadows_frame page b).
  assert (flipbook (updatePageShadows page (clear_shadows b))
          = flipbook (updatePageShadows page b)) as ->; [|reflexivity].
  apply list_eq. intros pos.
  rewrite (lookup_updatePageShadows page (clear_shadows b)).
  rewrite lookup_updatePageShadows.
  unfold clear_shadows. simpl.
  rewrite find_page_removeClass, view_of_with_flipbook, lookup_each.
  destruct (flipbook b !! pos) as [e|]; [|reflexivity]. simpl. f_equal.
  case_bool_decide; [|reflexivity].
  unfold repaint. rewrite removeClass_idemp. reflexivity.
Qed.

End ShadowRule.

(** ** The buttons *)

Section Buttons.

Lemma prevBtn_updateUI (page : Z) (b : TurnJSBook) :
  prevBtn (updateUI page b) = bool_decide (page_or_current page b <= 1)%Z.
Proof. unfold updateUI. rewrite updatePageShadows_frame. reflexivity. Qed.

Lemma nextBtn_updateUI (page : Z) (b : TurnJSBook) :
  nextBtn (updateUI page b)
  = bool_decide (page_or_current page b >= totalPages b)%Z.
Proof. unfold updateUI. rewrite updatePageShadows_frame. reflexivity. Qed.

(** The shadows [updateUI] leaves are those of [updatePageShadows] for the
    same page. *)
Lemma flipbook_updateUI (page : Z) (b : TurnJSBook) :
  flipbook (updateUI page b)
  = flipbook (updatePageShadows (page_or_current page b) b).
Proof.
  unfold updateUI. rewrite !updatePageShadows_calls. reflexivity.
Qed.

(** [updateUI] touches the two buttons and [#flipbook] only. *)
Lemma updateUI_frame (page : Z) (b : TurnJSBook) :
  totalPages (updateUI page b) = totalPages b /\
  isLoaded (updateUI page b) = isLoaded b /\
  turn (updateUI page b) = turn b /\
  loadingElement (updateUI page b) = loadingElement b /\
  listeners (updateUI page b) = listeners b /\
  actions (updateUI page b) = actions b.
Proof.
  unfold updateUI. rewrite updatePageShadows_frame. repeat split.
Qed.

Lemma isLoaded_updateUI (page : Z) (b : TurnJSBook) :
  isLoaded (updateUI page b) = isLoaded b.
Proof. apply updateUI_frame. Qed.

Lemma listeners_updateUI (page : Z) (b : TurnJSBook) :
  listeners (updateUI page b) = listeners b.
Proof. apply updateUI_frame. Qed.

(** Without an argument, or with 0, [updateUI] asks the widget. *)
Lemma page_or_current_zero (b : TurnJSBook) :
  page_or_current 0 b = page_of_turn b.
Proof. reflexivity. Qed.

Lemma page_or_current_nonzero (page : Z) (b : TurnJSBook) :
  page <> 0%Z -> page_or_current page b = page.
Proof.
  intros Hp. unfold page_or_current.
  rewrite bool_decide_eq_false_2 by exact Hp. reflexivity.
Qed.

End Buttons.

(** C1: after the shadows are recomputed for the reported page P: with a
    two-page view the right-hand page of the view has the right shadow
    whatever P is, and the left-hand page has the left shadow exactly when
    P > 1; with a one-page view and P = 1 that page has the right shadow and
    not the left one; with a one-page view and P = totalPages (more than one
    page in the book) it has the left shadow and not the right one.  No
    other page has a shadow.  The pages of the view are pages of the book:
    numbered from 1 to the number of pages.  These are the shadows the
    callback of a completed turn leaves when it is given the page P. *)
Theorem shadow_rule (b : TurnJSBook) (P l r v : Z) :
  let b' := updatePageShadows P b in
  let n := Z.of_nat (page_count b) in
  (view_of b = Some [l; r] ->
     (1 <= r <= n ->
        page_shadows (Z.to_nat (r - 1)) b'
        = Some (bool_decide (P > 1 /\ l = r), true))%Z /\
     (1 <= l <= n ->
        page_shadows (Z.to_nat (l - 1)) b'
        = Some (bool_decide (P > 1), bool_decide (l = r)))%Z /\
     (forall k, k < page_count b ->
        Z.of_nat k <> (l - 1)%Z -> Z.of_nat k <> (r - 1)%Z ->
        page_shadows k b' = Some (false, false))) /\
  (view_of b = Some [v] -> (1 <= v <= n)%Z -> P = 1%Z ->
     page_shadows (Z.to_nat (v - 1)) b' = Some (false, true) /\
     (forall k, k < page_count b -> Z.of_nat k <> (v - 1)%Z ->
        page_shadows k b' = Some (false, false))) /\
  (view_of b = Some [v] -> (1 <= v <= n)%Z ->
   (1 < totalPages b)%Z -> P = totalPages b ->
     page_shadows (Z.to_nat (v - 1)) b' = Some (true, false) /\
     (forall k, k < page_count b -> Z.of_nat k <> (v - 1)%Z ->
        page_shadows k b' = Some (false, false))) /\
  (P <> 0%Z -> flipbook (turned P b) = flipbook b').
Proof.
  intros b' n. subst b' n. split; [|split; [|split]]; cycle 3.
  { intros HP. unfold turned.
    rewrite flipbook_updateUI, page_or_current_nonzero by exact HP.
    reflexivity. }
  - intros Hv. split; [|split].
    + intros Hr. rewrite page_shadows_updatePageShadows by lia.
      rewrite Hv. unfold left_shadow_at, right_shadow_at.
      rewrite (bool_decide_eq_true_2 (Z.of_nat _ = _)) by lia.
      do 2 f_equal. apply bool_decide_ext. lia.
    + intros Hl. rewrite page_shadows_updatePageShadows by lia.
      rewrite Hv. unfold left_shadow_at, right_shadow_at.
      do 2 f_equal; apply bool_decide_ext; lia.
    + intros k Hk Hkl Hkr. rewrite page_shadows_updatePageShadows by exact Hk.
      rewrite Hv. unfold left_shadow_at, right_shadow_at.
      rewrite !bool_decide_eq_false_2 by tauto. reflexivity.
  - intros Hv Hn HP. split.
    + rewrite page_shadows_updatePageShadows by lia.
      rewrite Hv. unfold left_shadow_at, right_shadow_at, eq_index.
      rewrite (bool_decide_eq_false_2 (v - 1 < 0)%Z) by lia.
      rewrite bool_decide_eq_false_2 by tauto.
      rewrite bool_decide_eq_true_2 by lia. reflexivity.
    + intros k Hk Hkv. rewrite page_shadows_updatePageShadows by exact Hk.
      rewrite Hv. unfold left_shadow_at, right_shadow_at, eq_index.
      rewrite (bool_decide_eq_false_2 (v - 1 < 0)%Z) by lia.
      rewrite !bool_decide_eq_false_2 by tauto. reflexivity.
  - intros Hv Hn Ht HP. split.
    + rewrite page_shadows_updatePageShadows by lia.
      rewrite Hv. unfold left_shadow_at, right_shadow_at, eq_index.
      rewrite (bool_decide_eq_false_2 (v - 1 < 0)%Z) by lia.
      rewrite bool_decide_eq_true_2 by lia.
      rewrite bool_decide_eq_false_2 by lia. reflexivity.
    + intros k Hk Hkv. rewrite page_shadows_updatePageShadows by exact Hk.
      rewrite Hv. unfold left_shadow_at, right_shadow_at, eq_index.
      rewrite (bool_decide_eq_false_2 (v - 1 < 0)%Z) by lia.
      rewrite !bool_decide_eq_false_2 by tauto. reflexivity.
Qed.

(** C7: recomputing the shadows twice for the same page and view gives the
    same book as recomputing them once, class lists included; and what the
    recomputation gives does not depend on the shadow classes the pages had
    before, since they are all removed first: after one run and after two,
    a page has the left (the right) shadow class exactly when the rule gives
    it to its rank for this page and view, whatever classes it had, so a
    shadow a page had from an earlier view is gone; and its class list is
    the classes it had other than the two shadow classes, followed by the
    shadow classes the rule gives it, once each. *)
Theorem updatePageShadows_idempotent (b : TurnJSBook) (P : Z) :
  updatePageShadows P (updatePageShadows P b) = updatePageShadows P b /\
  updatePageShadows P (clear_shadows b) = updatePageShadows P b /\
  (forall k e, nth_page k (flipbook b) = Some e ->
     nth_page k (flipbook (updatePageShadows P b))
     = Some (repaint (left_shadow_at P (view_of b) (page_count b) k)
                     (right_shadow_at P (view_of b) (page_count b) k) e)) /\
  (forall k,
     page_shadows k (updatePageShadows P (updatePageShadows P b))
     = page_shadows k (updatePageShadows P b)) /\
  (forall k, k < page_count b ->
     page_shadows k (updatePageShadows P b)
     = Some (left_shadow_at P (view_of b) (page_count b) k,
             right_shadow_at P (view_of b) (page_count b) k) /\
     page_shadows k (updatePageShadows P (updatePageShadows P b))
     = Some (left_shadow_at P (view_of b) (page_count b) k,
             right_shadow_at P (view_of b) (page_count b) k)) /\
  (forall k e', nth_page k (flipbook (updatePageShadows P b)) = Some e' ->
     (jQuery.hasClass "left-shadow" e' = true ->
      left_shadow_at P (view_of b) (page_count b) k = true) /\
     (jQuery.hasClass "right-shadow" e' = true ->
      right_shadow_at P (view_of b) (page_count b) k = true)) /\
  (forall k e, nth_page k (flipbook b) = Some e ->
     exists e',
       nth_page k (flipbook (updatePageShadows P b)) = Some e' /\
       nth_page k (flipbook (updatePageShadows P (updatePageShadows P b)))
       = Some e' /\
       classes e'
       = filter (fun c => c ∉ ["left-shadow"; "right-shadow"]) (classes e)
           ++ (if left_shadow_at P (view_of b) (page_count b) k
               then ["left-shadow"] else [])
           ++ (if right_shadow_at P (view_of b) (page_count b) k
               then ["right-shadow"] else [])).
Proof.
  split; [apply updatePageShadows_idemp|].
  split; [apply updatePageShadows_clear_shadows|].
  split.
  { intros k e He. rewrite nth_page_updatePageShadows, He. reflexivity. }
  split.
  { intros k. rewrite updatePageShadows_idemp. reflexivity. }
  split.
  { intros k Hk. rewrite updatePageShadows_idemp.
    split; apply page_shadows_updatePageShadows, Hk. }
  split.
  { intros k e'. rewrite nth_page_updatePageShadows.
    destruct (nth_page k (flipbook b)) as [e|]; [|discriminate].
    intros [= <-].
    rewrite hasClass_left_repaint, hasClass_right_repaint. tauto. }
  intros k e He. eexists.
  rewrite updatePageShadows_idemp, nth_page_updatePageShadows, He.
  split; [reflexivity|]. split; [reflexivity|]. apply classes_repaint.
Qed.

(** C10: with a null or an empty view no page has a shadow class after the
    recomputation; with a two-page view and P > 1, a page has the left
    shadow only if it is the left page of the view and that page number is
    at least 1, so that a left page of 0 leaves every page without the left
    shadow. *)
Theorem no_view_no_shadow (b : TurnJSBook) (P : Z) :
  let b' := updatePageShadows P b in
  (view_of b = None \/ view_of b = Some [] ->
   forall k e, nth_page k (flipbook b') = Some e ->
     jQuery.hasClass "left-shadow" e = false /\
     jQuery.hasClass "right-shadow" e = false) /\
  (forall l r, view_of b = Some [l; r] -> (P > 1)%Z ->
   forall k e, nth_page k (flipbook b') = Some e ->
     (jQuery.hasClass "left-shadow" e = true
      <-> (1 <= l)%Z /\ Z.of_nat k = (l - 1)%Z) /\
     (l = 0%Z -> jQuery.hasClass "left-shadow" e = false)).
Proof.
  intros b'. subst b'. split.
  - intros Hv k e. rewrite nth_page_updatePageShadows.
    destruct (nth_page k (flipbook b)) as [e0|]; [|discriminate].
    intros [= <-].
    rewrite hasClass_left_repaint, hasClass_right_repaint.
    destruct Hv as [-> | ->]; split; reflexivity.
  - intros l r Hv HP k e. rewrite nth_page_updatePageShadows.
    destruct (nth_page k (flipbook b)) as [e0|]; [|discriminate].
    intros [= <-]. rewrite hasClass_left_repaint, Hv.
    unfold left_shadow_at. split.
    + rewrite bool_decide_eq_true. lia.
    + intros ->. apply bool_decide_eq_false_2. lia.
Qed.

(** C6: after updateUI(P) for a reported page P (a page number, so not 0,
    which updateUI takes for a missing argument), the previous button is
    disabled exactly when P <= 1 and the next button exactly when
    P >= totalPages; in a book of more than one page, at P = 1 previous is
    disabled and next enabled, and at P = totalPages next is disabled and
    previous enabled. *)
Theorem updateUI_buttons (b : TurnJSBook) (P : Z) :
  P <> 0%Z ->
  let b' := updateUI P b in
  (prevBtn b' = true <-> (P <= 1)%Z) /\
  (nextBtn b' = true <-> (P >= totalPages b)%Z) /\
  ((1 < totalPages b)%Z -> P = 1%Z ->
     prevBtn b' = true /\ nextBtn b' = false) /\
  ((1 < totalPages b)%Z -> P = totalPages b ->
     nextBtn b' = true /\ prevBtn b' = false).
Proof.
  intros HP b'. subst b'.
  rewrite prevBtn_updateUI, nextBtn_updateUI.
  rewrite page_or_current_nonzero by exact HP.
  split; [apply bool_decide_eq_true|].
  split; [apply bool_decide_eq_true|].
  split; intros Ht Hp; split;
    first [apply bool_decide_eq_true_2; lia
          | apply bool_decide_eq_false_2; lia].
Qed.

(** ** Starting the widget *)

Section Prerequisites.
Variable br : Browser.

Lemma initializeTurnJS_no_jquery (b : TurnJSBook) :
  jquery_loaded br = false ->
  initializeTurnJS br b = (Throws (JS.mkError "jQuery is not loaded"), b).
Proof. intros H. unfold initializeTurnJS. rewrite H. reflexivity. Qed.

Lemma initializeTurnJS_no_turn (b : TurnJSBook) :
  jquery_loaded br = true -> turn_loaded br = false ->
  initializeTurnJS br b = (Throws (JS.mkError "Turn.js is not loaded"), b).
Proof.
  intros H1 H2. unfold initializeTurnJS. rewrite H1, H2. reflexivity.
Qed.

(** The call returns normally exactly when both libraries are there and the
    plugin's constructor returns. *)
Lemma initializeTurnJS_normal (b : TurnJSBook) :
  (initializeTurnJS br b).1 = Normal tt
  <-> jquery_loaded br = true /\ turn_loaded br = true /\
      exists w, turn_create br turn_options (flipbook b) = inr w.
Proof.
  unfold initializeTurnJS.
  destruct (jquery_loaded br), (turn_loaded br); simpl;
    try (split; [discriminate|intros (? & ? & ?); discriminate]).
  destruct (turn_create br turn_options (flipbook b)) as [e|w]; simpl.
  - split; [discriminate|]. intros (_ & _ & w & Hw). discriminate.
  - split; [|reflexivity]. intros _. repeat split. exists w. reflexivity.
Qed.

Lemma initializeTurnJS_isLoaded (b : TurnJSBook) :
  isLoaded (initializeTurnJS br b).2
  = match (initializeTurnJS br b).1 with
    | Normal _ => true
    | _ => isLoaded b
    end.
Proof.
  unfold initializeTurnJS.
  destruct (jquery_loaded br), (turn_loaded br); simpl; try reflexivity.
  destruct (turn_create br turn_options (flipbook b)); reflexivity.
Qed.

Lemma initializeTurnJS_actions (b : TurnJSBook) :
  actions (initializeTurnJS br b).2
  = if jquery_loaded br && turn_loaded br
    then actions b ++ [TurnInit turn_options]
    else actions b.
Proof.
  unfold initializeTurnJS.
  destruct (jquery_loaded br), (turn_loaded br); simpl; try reflexivity.
  destruct (turn_create br turn_options (flipbook b)) as [e|w]; simpl;
    [reflexivity|].
  apply updateUI_frame.
Qed.

End Prerequisites.

(** C8: initializeTurnJS checks for jQuery, then for Turn.js: when one is
    missing it throws the error that names it and changes nothing, so the
    plugin is not called; the plugin is called only when both are there;
    and the ready flag becomes true only when the call returns normally,
    that is when both are there and the plugin's constructor returned, being
    left as it was otherwise. *)
Theorem initializeTurnJS_checks_first (br : Browser) (b : TurnJSBook) :
  let r := initializeTurnJS br b in
  (jquery_loaded br = false ->
     r = (Throws (JS.mkError "jQuery is not loaded"), b)) /\
  (jquery_loaded br = true -> turn_loaded br = false ->
     r = (Throws (JS.mkError "Turn.js is not loaded"), b)) /\
  (actions r.2 <> actions b ->
     jquery_loaded br = true /\ turn_loaded br = true /\
     actions r.2 = actions b ++ [TurnInit turn_options]) /\
  (r.1 = Normal tt <->
     jquery_loaded br = true /\ turn_loaded br = true /\
     exists w, turn_create br turn_options (flipbook b) = inr w) /\
  (r.1 = Normal tt -> isLoaded r.2 = true) /\
  (r.1 <> Normal tt -> isLoaded r.2 = isLoaded b).
Proof.
  intros r. subst r.
  split; [apply initializeTurnJS_no_jquery|].
  split; [apply initializeTurnJS_no_turn|].
  split.
  { rewrite initializeTurnJS_actions.
    destruct (jquery_loaded br), (turn_loaded br); simpl; intros Ha;
      first [congruence | (repeat split; reflexivity)]. }
  split; [apply initializeTurnJS_normal|].
  split.
  - intros Hr. rewrite initializeTurnJS_isLoaded, Hr. reflexivity.
  - intros Hr. rewrite initializeTurnJS_isLoaded.
    destruct (initializeTurnJS br b).1 as [[]| |]; [congruence| |];
      reflexivity.
Qed.

(** ** Navigation before the book is ready *)

Section Navigation.

Lemma handle_not_loaded (ev : DomEvent) (l : Listener) (b : TurnJSBook) :
  isLoaded b = false -> handle ev l b = (Normal tt, b).
Proof.
  intros Hb. destruct l, ev as [[]|k]; simpl; try reflexivity;
    unfold on_prev_click, on_next_click, on_keydown; rewrite Hb; reflexivity.
Qed.

Lemma run_handlers_not_loaded (ev : DomEvent) (ls : list Listener)
    (b : TurnJSBook) :
  isLoaded b = false -> run_handlers ev ls b = (Normal tt, b).
Proof.
  intros Hb. induction ls as [|l ls IH]; [reflexivity|].
  simpl. unfold bind. rewrite handle_not_loaded by exact Hb. exact IH.
Qed.

End Navigation.

(** C9: while the ready flag is false, a click on the previous or the next
    button and a press of the left or the right arrow (or of any key) return
    normally and leave the book as it was: no command goes to the widget,
    nothing is thrown, nothing is kept for later.  This holds of each
    handler and of the dispatch of the event to whatever handlers are
    bound. *)
Theorem navigation_ignored_until_ready (b : TurnJSBook) :
  isLoaded b = false ->
  on_prev_click b = (Normal tt, b) /\
  on_next_click b = (Normal tt, b) /\
  on_keydown "ArrowLeft" b = (Normal tt, b) /\
  on_keydown "ArrowRight" b = (Normal tt, b) /\
  (forall key, on_keydown key b = (Normal tt, b)) /\
  (forall ev, dispatch ev b = (Normal tt, b)) /\
  (forall ev c, TurnCommand c ∈ actions (dispatch ev b).2 ->
                TurnCommand c ∈ actions b).
Proof.
  intros Hb.
  assert (forall key, on_keydown key b = (Normal tt, b)) as Hkey
    by (intros key; unfold on_keydown; rewrite Hb; reflexivity).
  assert (forall ev, dispatch ev b = (Normal tt, b)) as Hev
    by (intros ev; apply run_handlers_not_loaded, Hb).
  repeat split; try apply Hkey; try apply Hev.
  - unfold on_prev_click. rewrite Hb. reflexivity.
  - unfold on_next_click. rewrite Hb. reflexivity.
  - intros ev c. rewrite Hev. tauto.
Qed.

(** C5: the path of a page is a function of its index alone: index 0 has
    the cover's name, and an index i >= 1 has the name made of the decimal
    digits of i with zeros put in front up to three characters (exactly
    three for i < 1000, which covers every page of the book, and the bare
    digits beyond); it is never the cover's name, and the image requested
    for page i has this path in every browser and every state of the
    book. *)
Theorem imagePath_rule (i : nat) :
  1 <= i ->
  imagePath 0 = "individual_pages/page_000_cover.jpg" /\
  imagePath i = "individual_pages/page_" +:+ numeric_field i +:+ ".jpg" /\
  numeric_field i
  = zeros (3 - String.length (JS.toString i)) +:+ JS.toString i /\
  digits_only (numeric_field i) = true /\
  read_decimal 0 (numeric_field i) = N.of_nat i /\
  String.length (numeric_field i) = 3 `max` String.length (JS.toString i) /\
  (i < 1000 -> String.length (numeric_field i) = 3) /\
  (forall d, (Z.of_nat i < totalPages (fresh_book d))%Z ->
             String.length (numeric_field i) = 3) /\
  imagePath i <> imagePath 0 /\
  (forall j, imagePath i = imagePath j -> i = j) /\
  (forall br b, exists rest,
     actions (createPages_step br i b).2
     = actions b ++ Requested (imagePath i) :: rest).
Proof.
  intros Hi.
  split; [apply imagePath_cover|].
  split; [apply imagePath_numeric, Hi|].
  split; [apply padStart_zero|].
  split; [apply numeric_field_digits|].
  split; [apply numeric_field_value|].
  split; [apply numeric_field_length|].
  split; [apply numeric_field_width|].
  split; [intros d Hd; apply numeric_field_width; simpl in Hd; lia|].
  split; [apply imagePath_not_cover, Hi|].
  split; [apply imagePath_inj|].
  intros br b.
  pose proof (settle_loadImage_settled br (new_img i)) as Hs.
  fold (loaded br i) in Hs.
  destruct (state (loaded br i)) as [| |e] eqn:E; [congruence| |].
  - rewrite createPages_step_fulfilled by exact E. eexists. reflexivity.
  - rewrite (createPages_step_rejected br i e) by exact E. eexists.
    reflexivity.
Qed.

(** ** Start-up as a whole, and the inputs after it *)

Section StartUp.
Variable br : Browser.

(** [createPages] changes [#flipbook] and the record of actions only. *)
Lemma createPages_from_frame (n i : nat) (b : TurnJSBook) :
  exists pages acts, (createPages_from br n i b).2 = advance pages acts b.
Proof.
  revert i b. induction n as [|n IH]; intros i b.
  - exists [], []. simpl. rewrite advance_nil. reflexivity.
  - simpl. unfold bind at 1.
    pose proof (settle_loadImage_settled br (new_img i)) as Hs.
    fold (loaded br i) in Hs.
    destruct (state (loaded br i)) as [| |e] eqn:E; [congruence| |].
    + rewrite createPages_step_fulfilled by exact E.
      destruct (IH (S i) (advance [page_of i] (page_trace br i) b))
        as (pages & acts & ->).
      rewrite advance_advance. eauto.
    + rewrite (createPages_step_rejected br i e) by exact E. simpl. eauto.
Qed.

Lemma createPages_frame (b : TurnJSBook) :
  exists pages acts, (createPages br b).2 = advance pages acts b.
Proof. apply createPages_from_frame. Qed.

(** [initializeTurnJS] either sets the ready flag and returns, or throws
    with the flag and the handlers as they were; it never touches the
    handlers. *)
Lemma initializeTurnJS_flag (b : TurnJSBook) :
  listeners (initializeTurnJS br b).2 = listeners b /\
  ((initializeTurnJS br b).1 = Normal tt /\
   isLoaded (initializeTurnJS br b).2 = true
   \/ (exists e, (initializeTurnJS br b).1 = Throws e) /\
      isLoaded (initializeTurnJS br b).2 = isLoaded b).
Proof.
  unfold initializeTurnJS.
  destruct (jquery_loaded br); simpl; [|split; [reflexivity|right; eauto]].
  destruct (turn_loaded br); simpl; [|split; [reflexivity|right; eauto]].
  destruct (turn_create br turn_options _) as [e|w]; simpl.
  - split; [reflexivity|right; eauto].
  - split; [rewrite listeners_updateUI; reflexivity
           |left; split; reflexivity].
Qed.

(** [init] with its sequence and its [try]/[catch] spelled out. *)
Lemma init_unfold (b : TurnJSBook) :
  init br b =
  match createPages br (showLoading b).2 with
  | (Normal _, b2) =>
      match initializeTurnJS br b2 with
      | (Normal _, b3) => hideLoading (bindEvents b3).2
      | (Throws e, b3) => showError e b3
      | (Suspended, b3) => (Suspended, b3)
      end
  | (Throws e, b2) => showError e b2
  | (Suspended, b2) => (Suspended, b2)
  end.
Proof.
  unfold init, try_catch, bind. simpl.
  destruct (createPages br _) as [[[]|e|] b2]; try reflexivity.
  destruct (initializeTurnJS br b2) as [[[]|e|] b3]; reflexivity.
Qed.

(** [init] never throws and never stays suspended: whatever goes wrong is
    caught and shown.  It binds the three handlers exactly when it sets the
    ready flag. *)
Lemma init_outcome (b : TurnJSBook) :
  (init br b).1 = Normal tt /\
  (isLoaded (init br b).2 = true /\
   listeners (init br b).2 = listeners b ++ [PrevClick; NextClick; Keydown]
   \/ isLoaded (init br b).2 = isLoaded b /\
      listeners (init br b).2 = listeners b).
Proof.
  rewrite init_unfold.
  set (b1 := (showLoading b).2).
  assert (isLoaded b1 = isLoaded b /\ listeners b1 = listeners b)
    as [Hi1 Hl1] by (split; reflexivity).
  clearbody b1.
  pose proof (createPages_returns br b1) as Hret.
  destruct (createPages_frame b1) as (pages & acts & Hframe).
  destruct (createPages br b1) as [[[]|e|] b2]; cbn [fst snd] in *.
  - subst b2.
    destruct (initializeTurnJS_flag (advance pages acts b1)) as (Hl & Hflag).
    destruct (initializeTurnJS br (advance pages acts b1)) as [c b3].
    cbn [fst snd] in *.
    destruct Hflag as [[-> Hready]|[[e ->] Hsame]]; simpl.
    + split; [reflexivity|]. left. split; [exact Hready|].
      rewrite Hl. simpl. rewrite Hl1. reflexivity.
    + split; [reflexivity|]. right. rewrite Hsame, Hl. simpl.
      split; assumption.
  - subst b2. simpl. split; [reflexivity|]. right. split; assumption.
  - congruence.
Qed.

(** The handlers send commands to the widget and change nothing else. *)
Lemma handle_frame (ev : DomEvent) (l : Listener) (b : TurnJSBook) :
  exists acts, handle ev l b = (Normal tt, advance [] acts b).
Proof.
  assert (forall c, turn_command c b
                    = (Normal tt, advance [] [TurnCommand c] b)) as Hcmd.
  { intros c. unfold turn_command, record, modify, advance, with_flipbook.
    simpl. rewrite app_nil_r. destruct b; reflexivity. }
  assert (ret tt b = (Normal tt, advance [] [] b)) as Hret
    by (rewrite advance_nil; reflexivity).
  destruct l, ev as [[]|k]; simpl;
    unfold on_prev_click, on_next_click, on_keydown;
    repeat case_match; eauto.
Qed.

Lemma run_handlers_frame (ev : DomEvent) (ls : list Listener)
    (b : TurnJSBook) :
  exists acts, run_handlers ev ls b = (Normal tt, advance [] acts b).
Proof.
  revert b. induction ls as [|l ls IH]; intros b.
  - exists []. rewrite advance_nil. reflexivity.
  - simpl. unfold bind. destruct (handle_frame ev l b) as (a1 & ->).
    destruct (IH (advance [] a1 b)) as (a2 & ->).
    rewrite advance_advance. eauto.
Qed.

(** No input changes the ready flag or the handlers. *)
Lemma react_frame (b : TurnJSBook) (i : Input) :
  isLoaded (react b i) = isLoaded b /\ listeners (react b i) = listeners b.
Proof.
  destruct i as [ev|page|w]; simpl.
  - unfold dispatch. destruct (run_handlers_frame ev (listeners b) b)
      as (acts & ->). split; reflexivity.
  - destruct (turn b); split; reflexivity.
  - destruct (turn b); [|split; reflexivity].
    unfold turned.
    rewrite isLoaded_updateUI, listeners_updateUI. split; reflexivity.
Qed.

Lemma run_frame (b : TurnJSBook) (inputs : list Input) :
  isLoaded (run b inputs) = isLoaded b /\
  listeners (run b inputs) = listeners b.
Proof.
  unfold run. revert b. induction inputs as [|i inputs IH]; intros b;
    [split; reflexivity|].
  simpl. destruct (IH (react b i)) as [-> ->]. apply react_frame.
Qed.

(** In every state the page goes through, from the constructor on,
    handlers are bound only if the book is ready. *)
Lemma handlers_only_when_ready (d : Document) (inputs : list Input) :
  let b := run (constructor br d).2 inputs in
  listeners b <> [] -> isLoaded b = true.
Proof.
  intros b. subst b. destruct (run_frame (constructor br d).2 inputs)
    as [-> ->].
  unfold constructor.
  destruct (init_outcome (fresh_book d)) as (_ & [[Hr _]|[_ Hl]]).
  - intros _. exact Hr.
  - rewrite Hl. simpl. congruence.
Qed.

End StartUp.

(** ** The scenarios of the specification, run *)

Example ready_book_ready :
  isLoaded ready_book = true /\
  listeners ready_book = [PrevClick; NextClick; Keydown] /\
  flipbook ready_book
  = jQuery.addClass "right-shadow" (page_of 0) :: (page_of <$> seq 1 20).
Proof. vm_compute. repeat split. Qed.

(** 21 pages, page 1 reported, view [1]: only the right shadow, on page 1;
    previous disabled, next enabled. *)
Example first_page_scenario :
  let b := turned 1 (reporting 1 [1]%Z ready_book) in
  page_shadows 0 b = Some (false, true) /\
  prevBtn b = true /\ nextBtn b = false.
Proof. vm_compute. repeat split. Qed.

(** Page 21 reported, view [21]: only the left shadow; next disabled,
    previous enabled. *)
Example last_page_scenario :
  let b := turned 21 (reporting 21 [21]%Z ready_book) in
  page_shadows 20 b = Some (true, false) /\
  prevBtn b = false /\ nextBtn b = true.
Proof. vm_compute. repeat split. Qed.

(** Page 5 reported, view [4, 5]: the page of index 3 has the left shadow,
    the page of index 4 the right one. *)
Example mid_book_scenario :
  let b := turned 5 (reporting 5 [4; 5]%Z ready_book) in
  page_shadows 3 b = Some (true, false) /\
  page_shadows 4 b = Some (false, true) /\
  prevBtn b = false /\ nextBtn b = false.
Proof. vm_compute. repeat split. Qed.

(** Once the book is ready the left arrow sends [previous] to the widget. *)
Example arrow_left_when_ready :
  actions (dispatch (Key "ArrowLeft") ready_book).2
  = actions ready_book ++ [TurnCommand Previous].
Proof. vm_compute. reflexivity. Qed.

(** [eq] counts a negative index from the end: a one-page view that
    reports page 0 shades the last page. *)
Example view_zero_shades_last_page :
  page_shadows 20 (updatePageShadows 21 (reporting 21 [0]%Z ready_book))
  = Some (true, false).
Proof. vm_compute. reflexivity. Qed.

(** ** Instances of the theorems *)

Lemma shadow_rule_witness :
  let spread := reporting 5 [4; 5]%Z ready_book in
  let first := reporting 1 [1]%Z ready_book in
  let last := reporting 21 [21]%Z ready_book in
  (view_of spread = Some [4; 5]%Z /\
   (1 <= 5 <= Z.of_nat (page_count spread))%Z /\
   (1 <= 4 <= Z.of_nat (page_count spread))%Z /\
   page_shadows 4 (updatePageShadows 5 spread) = Some (false, true) /\
   page_shadows 3 (updatePageShadows 5 spread) = Some (true, false)) /\
  (view_of first = Some [1]%Z /\
   (1 <= 1 <= Z.of_nat (page_count first))%Z /\
   page_shadows 0 (updatePageShadows 1 first) = Some (false, true)) /\
  (view_of last = Some [21]%Z /\
   (1 <= 21 <= Z.of_nat (page_count last))%Z /\
   (1 < totalPages last)%Z /\ 21%Z = totalPages last /\
   page_shadows 20 (updatePageShadows 21 last) = Some (true, false)).
Proof.
  intros spread first last.
  assert (forall x y : Z, (x <=? y)%Z = true -> (x <= y)%Z) as Hle
    by (intros x y; apply Z.leb_le).
  assert (page_count spread = 21) as Hs by (vm_compute; reflexivity).
  assert (page_count first = 21) as Hf by (vm_compute; reflexivity).
  assert (page_count last = 21) as Hl by (vm_compute; reflexivity).
  assert (1 <= 5 <= Z.of_nat (page_count spread))%Z as H5
    by (rewrite Hs; lia).
  assert (1 <= 4 <= Z.of_nat (page_count spread))%Z as H4
    by (rewrite Hs; lia).
  assert (1 <= 1 <= Z.of_nat (page_count first))%Z as H1
    by (rewrite Hf; lia).
  assert (1 <= 21 <= Z.of_nat (page_count last))%Z as H21
    by (rewrite Hl; lia).
  assert (1 < totalPages last)%Z as Ht by (vm_compute; reflexivity).
  destruct (shadow_rule spread 5 4 5 0) as (Hspread & _ & _ & _).
  destruct (Hspread eq_refl) as (Hright & Hleft & _).
  destruct (shadow_rule first 1 0 0 1) as (_ & Hfirst & _ & _).
  destruct (shadow_rule last 21 0 0 21) as (_ & _ & Hlast & _).
  split; [|split].
  - split; [reflexivity|]. split; [exact H5|]. split; [exact H4|].
    split; [exact (Hright H5)|exact (Hleft H4)].
  - split; [reflexivity|]. split; [exact H1|].
    exact (proj1 (Hfirst eq_refl H1 eq_refl)).
  - split; [reflexivity|]. split; [exact H21|]. split; [exact Ht|].
    split; [reflexivity|].
    exact (proj1 (Hlast eq_refl H21 Ht eq_refl)).
Defined.

Lemma createPages_appends_in_order_witness :
  let b := fresh_book empty_document in
  totalPages b = Z.of_nat 21 /\
  (forall i, i < 21 -> state (loaded good_browser i) = Fulfilled) /\
  (createPages good_browser b).1 = Normal tt /\
  flipbook (createPages good_browser b).2 = page_of <$> seq 0 21 /\
  length (flipbook (createPages good_browser b).2) = 21.
Proof.
  intros b.
  assert (totalPages b = Z.of_nat 21) as HN by reflexivity.
  assert (forall i, i < 21 -> state (loaded good_browser i) = Fulfilled)
    as Hok by (intros i _; unfold loaded; rewrite settle_loadImage;
               reflexivity).
  destruct (createPages_appends_in_order good_browser b 21 HN Hok)
    as (Hr & _ & Hlen & _ & _ & Hempty).
  split; [exact HN|]. split; [exact Hok|]. split; [exact Hr|].
  split; [exact (Hempty eq_refl)|exact Hlen].
Defined.

Lemma first_rejected_load_aborts_witness :
  let br := slow_browser (imagePath 2) in
  let b := fresh_book empty_document in
  let e := timeout_error br (new_img 2) in
  totalPages b = Z.of_nat 21 /\ 2 < 21 /\
  (forall j, j < 2 -> state (loaded br j) = Fulfilled) /\
  state (loaded br 2) = Rejected e /\
  (createPages br b).1 = Throws e /\
  flipbook (createPages br b).2 = [page_of 0; page_of 1] /\
  isLoaded (init br b).2 = false /\
  listeners (init br b).2 = [].
Proof.
  intros br b e.
  assert (totalPages b = Z.of_nat 21) as HN by reflexivity.
  assert (2 < 21) as Hi by lia.
  assert (forall j, j < 2 -> state (loaded br j) = Fulfilled) as Hok.
  { intros j Hj. destruct j as [|[|j]]; [reflexivity|reflexivity|lia]. }
  assert (state (loaded br 2) = Rejected e) as Hko
    by (vm_compute; reflexivity).
  destruct (first_rejected_load_aborts br b 21 2 e HN Hi Hok Hko)
    as (Hr & Hf & _ & _ & _ & _ & _ & _ & _ & _ & Hl & Hb).
  split; [exact HN|]. split; [exact Hi|]. split; [exact Hok|].
  split; [exact Hko|]. split; [exact Hr|]. split; [exact Hf|].
  split; [exact (Hl eq_refl)|exact (Hb eq_refl)].
Defined.

Lemma imagePath_rule_witness :
  1 <= 7 /\ 7 < 1000 /\
  imagePath 7 = "individual_pages/page_007.jpg" /\
  String.length (numeric_field 7) = 3.
Proof.
  assert (1 <= 7) as H1 by lia.
  assert (7 < 1000) as H2 by lia.
  destruct (imagePath_rule 7 H1) as (_ & Hp & _ & _ & _ & _ & Hw & _).
  split; [exact H1|]. split; [exact H2|]. split; [exact Hp|exact (Hw H2)].
Defined.

Lemma updateUI_buttons_witness :
  (1 <> 0 /\ 21 <> 0 /\ 1 < totalPages ready_book)%Z /\
  (prevBtn (updateUI 1 ready_book) = true /\
   nextBtn (updateUI 1 ready_book) = false) /\
  (nextBtn (updateUI 21 ready_book) = true /\
   prevBtn (updateUI 21 ready_book) = false).
Proof.
  assert (1 <> 0)%Z as H1 by lia.
  assert (21 <> 0)%Z as H21 by lia.
  assert (1 < totalPages ready_book)%Z as Ht by (vm_compute; reflexivity).
  destruct (updateUI_buttons ready_book 1 H1) as (_ & _ & Hfirst & _).
  destruct (updateUI_buttons ready_book 21 H21) as (_ & _ & _ & Hlast).
  split; [split; [exact H1|split; [exact H21|exact Ht]]|].
  split; [exact (Hfirst Ht eq_refl)|].
  exact (Hlast Ht ltac:(vm_compute; reflexivity)).
Defined.

Lemma updatePageShadows_idempotent_witness :
  let b := reporting 5 [4; 5]%Z ready_book in
  nth_page 3 (flipbook b) = Some (page_of 3) /\
  nth_page 3 (flipbook (updatePageShadows 5 b))
  = Some (jQuery.addClass "left-shadow" (page_of 3)) /\
  updatePageShadows 5 (updatePageShadows 5 b) = updatePageShadows 5 b /\
  0 < page_count b /\
  page_shadows 0 b = Some (false, true) /\
  page_shadows 0 (updatePageShadows 5 b) = Some (false, false) /\
  page_shadows 0 (updatePageShadows 5 (updatePageShadows 5 b))
  = Some (false, false) /\
  nth_page 0 (flipbook b)
  = Some (mkElement ["page"; "right-shadow"]
            [mkImg "individual_pages/page_000_cover.jpg" "Page 1"]) /\
  (exists e', nth_page 0 (flipbook (updatePageShadows 5 b)) = Some e' /\
              classes e' = ["page"]).
Proof.
  intros b.
  assert (nth_page 3 (flipbook b) = Some (page_of 3)) as H3
    by (vm_compute; reflexivity).
  assert (0 < page_count b) as Hn by (vm_compute; lia).
  assert (nth_page 0 (flipbook b)
          = Some (mkElement ["page"; "right-shadow"]
                    [mkImg "individual_pages/page_000_cover.jpg" "Page 1"]))
    as H0 by (vm_compute; reflexivity).
  destruct (updatePageShadows_idempotent b 5)
    as (Hid & _ & Hpage & _ & Hrule & _ & Hclasses).
  destruct (Hrule 0 Hn) as (Honce & Htwice).
  destruct (Hclasses 0 _ H0) as (e' & He' & _ & Hc).
  split; [exact H3|]. split.
  { rewrite (Hpage 3 _ H3). vm_compute. reflexivity. }
  split; [exact Hid|]. split; [exact Hn|].
  split; [vm_compute; reflexivity|].
  split; [exact Honce|]. split; [exact Htwice|]. split; [exact H0|].
  exists e'. split; [exact He'|]. rewrite Hc. vm_compute. reflexivity.
Defined.

Lemma initializeTurnJS_checks_first_witness :
  let b := (createPages good_browser (fresh_book empty_document)).2 in
  initializeTurnJS browser_without_jquery b
  = (Throws (JS.mkError "jQuery is not loaded"), b) /\
  initializeTurnJS browser_without_turn b
  = (Throws (JS.mkError "Turn.js is not loaded"), b) /\
  (initializeTurnJS good_browser b).1 = Normal tt /\
  isLoaded (initializeTurnJS good_browser b).2 = true.
Proof.
  intros b.
  destruct (initializeTurnJS_checks_first browser_without_jquery b)
    as (Hj & _).
  destruct (initializeTurnJS_checks_first browser_without_turn b)
    as (_ & Ht & _).
  destruct (initializeTurnJS_checks_first good_browser b)
    as (_ & _ & _ & Hn & Hl & _).
  assert ((initializeTurnJS good_browser b).1 = Normal tt) as Hgood.
  { apply Hn. split; [reflexivity|]. split; [reflexivity|].
    eexists. reflexivity. }
  split; [exact (Hj eq_refl)|]. split; [exact (Ht eq_refl eq_refl)|].
  split; [exact Hgood|exact (Hl Hgood)].
Defined.

Lemma navigation_ignored_until_ready_witness :
  let b := with_isLoaded false ready_book in
  isLoaded b = false /\
  listeners b = [PrevClick; NextClick; Keydown] /\
  dispatch (Click PrevBtn) b = (Normal tt, b) /\
  dispatch (Click NextBtn) b = (Normal tt, b) /\
  dispatch (Key "ArrowLeft") b = (Normal tt, b) /\
  dispatch (Key "ArrowRight") b = (Normal tt, b).
Proof.
  intros b.
  assert (isLoaded b = false) as Hb by reflexivity.
  destruct (navigation_ignored_until_ready b Hb)
    as (_ & _ & _ & _ & _ & Hev & _).
  split; [exact Hb|]. split; [vm_compute; reflexivity|].
  repeat split; apply Hev.
Defined.

Lemma no_view_no_shadow_witness :
  let blank := with_turn (Some (mkWidget 1 None)) ready_book in
  let cover := reporting 2 [0; 1]%Z ready_book in
  (view_of blank = None /\
   nth_page 0 (flipbook (updatePageShadows 1 blank)) = Some (page_of 0) /\
   jQuery.hasClass "right-shadow" (page_of 0) = false) /\
  (view_of cover = Some [0; 1]%Z /\ (2 > 1)%Z /\
   nth_page 20 (flipbook (updatePageShadows 2 cover)) = Some (page_of 20) /\
   jQuery.hasClass "left-shadow" (page_of 20) = false).
Proof.
  intros blank cover.
  assert (nth_page 0 (flipbook (updatePageShadows 1 blank))
          = Some (page_of 0)) as H0 by (vm_compute; reflexivity).
  assert (nth_page 20 (flipbook (updatePageShadows 2 cover))
          = Some (page_of 20)) as H20 by (vm_compute; reflexivity).
  assert (2 > 1)%Z as H2 by lia.
  destruct (no_view_no_shadow blank 1) as (Hnone & _).
  destruct (no_view_no_shadow cover 2) as (_ & Hzero).
  split.
  - split; [reflexivity|]. split; [exact H0|].
    exact (proj2 (Hnone (or_introl eq_refl) 0 _ H0)).
  - split; [reflexivity|]. split; [exact H2|]. split; [exact H20|].
    exact (proj2 (Hzero 0%Z 1%Z eq_refl H2 20 _ H20) eq_refl).
Defined.

(** * Further properties *)

(** ** The loop of [createPages], whatever the network does *)

Section LoopShape.
Variable br : Browser.

(** The loop appends the pages of a run of fulfilled loads and stops at
    the end or at the first rejected load. *)
Lemma createPages_from_shape (n i : nat) (b : TurnJSBook) :
  exists k,
    k <= n /\
    (forall j, i <= j < i + k -> state (loaded br j) = Fulfilled) /\
    (k = n /\
     createPages_from br n i b
     = (Normal tt,
        advance (page_of <$> seq i k) (mjoin (page_trace br <$> seq i k)) b)
     \/
     k < n /\ exists e,
       state (loaded br (i + k)) = Rejected e /\
       createPages_from br n i b
       = (Throws e,
          advance (page_of <$> seq i k)
                  (mjoin (page_trace br <$> seq i k)
                     ++ failed_trace br (i + k)) b)).
Proof.
  revert i b. induction n as [|n IH]; intros i b.
  - exists 0. split; [lia|]. split; [intros j Hj; lia|]. left.
    split; [reflexivity|]. simpl. rewrite advance_nil. reflexivity.
  - pose proof (settle_loadImage_settled br (new_img i)) as Hs.
    fold (loaded br i) in Hs.
    destruct (state (loaded br i)) as [| |e] eqn:E; [congruence| |].
    + destruct (IH (S i) (advance [page_of i] (page_trace br i) b))
        as (k & Hk & Hok & Hres).
      exists (S k). split; [lia|]. split.
      { intros j Hj. destruct (decide (j = i)) as [->|Hne]; [exact E|].
        apply Hok. lia. }
      simpl. unfold bind at 1 2.
      rewrite createPages_step_fulfilled by exact E.
      destruct Hres as [[-> ->]|(Hlt & e & Hko & ->)].
      * left. split; [reflexivity|]. rewrite advance_advance. reflexivity.
      * right. split; [lia|]. exists e.
        replace (i + S k) with (S i + k) by lia. split; [exact Hko|].
        rewrite advance_advance, app_assoc. reflexivity.
    + exists 0. split; [lia|]. split; [intros j Hj; lia|]. right.
      split; [lia|]. exists e. rewrite Nat.add_0_r. split; [exact E|].
      simpl. unfold bind at 1.
      rewrite (createPages_step_rejected br i e) by exact E. reflexivity.
Qed.

End LoopShape.

(** X1: whatever the network does, createPages returns or throws, and the
    container then holds what it held followed by the pages 0, ..., k - 1 in
    order, for some k: every page of the book when it returns, the pages
    before the first rejected load when it throws, and the error thrown is
    that load's.  The images are requested one at a time: the record shows
    each request followed by its settlement before the next request.  With
    totalPages at most 0 it returns at once and changes nothing. *)
Theorem createPages_appends_a_prefix (br : Browser) (b : TurnJSBook) :
  let r := createPages br b in
  (exists k,
     k <= iterations b /\
     flipbook r.2 = flipbook b ++ (page_of <$> seq 0 k) /\
     (forall j, j < k -> state (loaded br j) = Fulfilled) /\
     (k = iterations b /\ r.1 = Normal tt /\
      actions r.2 = actions b ++ mjoin (page_trace br <$> seq 0 k)
      \/ k < iterations b /\
         exists e, r.1 = Throws e /\ state (loaded br k) = Rejected e /\
           actions r.2
           = actions b ++ mjoin (page_trace br <$> seq 0 k)
               ++ [Requested (imagePath k);
                   Settled (imagePath k) (loaded br k)])) /\
  r.1 <> Suspended /\
  ((totalPages b <= 0)%Z -> r = (Normal tt, b)).
Proof.
  intros r. subst r. unfold createPages, iterations.
  split; [|split].
  - destruct (createPages_from_shape br (Z.to_nat (totalPages b)) 0 b)
      as (k & Hk & Hok & Hres).
    exists k. split; [exact Hk|].
    destruct Hres as [[Hn ->]|(Hlt & e & Hko & ->)]; simpl.
    + split; [reflexivity|]. split; [intros j Hj; apply Hok; lia|].
      left. split; [exact Hn|]. split; reflexivity.
    + split; [reflexivity|]. split; [intros j Hj; apply Hok; lia|].
      right. split; [exact Hlt|]. exists e. split; [reflexivity|].
      split; [exact Hko|reflexivity].
  - apply createPages_from_returns.
  - intros Hle. replace (Z.to_nat (totalPages b)) with 0 by lia.
    reflexivity.
Qed.

(** ** [init], case by case *)

Section InitCases.
Variable br : Browser.

Lemma initializeTurnJS_failure (b : TurnJSBook) (e : JS.Error) :
  widget_failure br (flipbook b) = Some e ->
  initializeTurnJS br b
  = (Throws e,
     if jquery_loaded br && turn_loaded br
     then with_actions (actions b ++ [TurnInit turn_options]) b
     else b).
Proof.
  unfold widget_failure, initializeTurnJS.
  destruct (jquery_loaded br); simpl; [|intros [= <-]; reflexivity].
  destruct (turn_loaded br); simpl; [|intros [= <-]; reflexivity].
  destruct (turn_create br turn_options (flipbook b)) as [e'|w];
    [intros [= <-]; reflexivity|discriminate].
Qed.

Lemma initializeTurnJS_started (b : TurnJSBook) :
  widget_failure br (flipbook b) = None ->
  exists w,
    turn_create br turn_options (flipbook b) = inr w /\
    jquery_loaded br = true /\ turn_loaded br = true /\
    initializeTurnJS br b
    = (Normal tt,
       with_isLoaded true
         (updateUI 1
            (with_turn (Some w)
               (with_actions (actions b ++ [TurnInit turn_options]) b)))).
Proof.
  unfold widget_failure, initializeTurnJS.
  destruct (jquery_loaded br); simpl; [|discriminate].
  destruct (turn_loaded br); simpl; [|discriminate].
  destruct (turn_create br turn_options (flipbook b)) as [e'|w];
    [discriminate|].
  intros _. exists w. repeat split.
Qed.

(** The three ways [init] can go. *)
Lemma init_cases (b : TurnJSBook) :
  (exists k e,
     k < iterations b /\
     (forall j, j < k -> state (loaded br j) = Fulfilled) /\
     state (loaded br k) = Rejected e /\
     init br b
     = showError e
         (advance (page_of <$> seq 0 k)
                  (mjoin (page_trace br <$> seq 0 k) ++ failed_trace br k)
                  (showLoading b).2))
  \/
  ((forall j, j < iterations b -> state (loaded br j) = Fulfilled) /\
   exists e,
     widget_failure br (flipbook (preloaded br b)) = Some e /\
     init br b
     = showError e
         (if jquery_loaded br && turn_loaded br
          then with_actions
                 (actions (preloaded br b) ++ [TurnInit turn_options])
                 (preloaded br b)
          else preloaded br b))
  \/
  ((forall j, j < iterations b -> state (loaded br j) = Fulfilled) /\
   exists w,
     widget_failure br (flipbook (preloaded br b)) = None /\
     turn_create br turn_options (flipbook (preloaded br b)) = inr w /\
     init br b
     = hideLoading
         (bindEvents
            (with_isLoaded true
               (updateUI 1
                  (with_turn (Some w)
                     (with_actions
                        (actions (preloaded br b) ++ [TurnInit turn_options])
                        (preloaded br b)))))).2).
Proof.
  rewrite !init_unfold. unfold preloaded, createPages.
  change (Z.to_nat (totalPages (showLoading b).2)) with (iterations b).
  destruct (createPages_from_shape br (iterations b) 0 (showLoading b).2)
    as (k & Hk & Hok & [[-> ->]|(Hlt & e & Hko & ->)]).
  - right.
    set (b2 := advance _ _ _) in *.
    destruct (widget_failure br (flipbook b2)) as [e|] eqn:Hw.
    + left. split; [intros j Hj; apply Hok; lia|]. exists e.
      split; [reflexivity|].
      rewrite (initializeTurnJS_failure b2 e Hw). reflexivity.
    + right. split; [intros j Hj; apply Hok; lia|].
      destruct (initializeTurnJS_started b2 Hw) as (w & Hc & _ & _ & ->).
      exists w. split; [reflexivity|]. split; [exact Hc|reflexivity].
  - left. exists k, e. split; [exact Hlt|].
    split; [intros j Hj; apply Hok; lia|]. split; [exact Hko|reflexivity].
Qed.

End InitCases.

Section InitOutcomes.
Variable br : Browser.

(** The book when [init] has caught [e] over the book [b']. *)
Lemma showError_fields (e : JS.Error) (b' : TurnJSBook) :
  let r := showError e b' in
  r.1 = Normal tt /\
  loading_text (loadingElement r.2) = error_text e /\
  loading_color (loadingElement r.2) = "#ff6b6b" /\
  loading_classes (loadingElement r.2) = loading_classes (loadingElement b') /\
  isLoaded r.2 = isLoaded b' /\ listeners r.2 = listeners b' /\
  flipbook r.2 = flipbook b' /\ turn r.2 = turn b' /\
  actions r.2 = actions b' /\
  prevBtn r.2 = prevBtn b' /\ nextBtn r.2 = nextBtn b'.
Proof. repeat split. Qed.

Lemma showLoading_not_hidden (b : TurnJSBook) :
  "hidden" ∉ loading_classes (loadingElement (showLoading b).2).
Proof.
  simpl. rewrite list_elem_of_filter, list_elem_of_singleton. tauto.
Qed.

(** The book when [init] has gone through, the widget having answered
    [w]. *)
Lemma init_started_fields (b : TurnJSBook) (w : Widget) :
  let started :=
    with_isLoaded true
      (updateUI 1
         (with_turn (Some w)
            (with_actions
               (actions (preloaded br b) ++ [TurnInit turn_options])
               (preloaded br b)))) in
  let r := hideLoading (bindEvents started).2 in
  r.1 = Normal tt /\
  isLoaded r.2 = true /\
  listeners r.2 = listeners b ++ [PrevClick; NextClick; Keydown] /\
  turn r.2 = Some w /\
  actions r.2
  = actions b ++ mjoin (page_trace br <$> seq 0 (iterations b))
      ++ [TurnInit turn_options] /\
  flipbook r.2
  = flipbook
      (updatePageShadows 1
         (with_turn (Some w)
            (with_flipbook
               (flipbook b ++ (page_of <$> seq 0 (iterations b))) b))) /\
  prevBtn r.2 = true /\
  nextBtn r.2 = bool_decide (1 >= totalPages b)%Z /\
  "hidden" ∈ loading_classes (loadingElement r.2) /\
  loading_text (loadingElement r.2) = loading_text (loadingElement b) /\
  loading_color (loadingElement r.2) = loading_color (loadingElement b).
Proof.
  intros started r. subst r started.
  set (b2 := with_turn _ _).
  destruct (updateUI_frame 1 b2) as (Ht & Hi & Htu & Hld & Hls & Ha).
  split; [reflexivity|]. split; [reflexivity|].
  split; [simpl; rewrite Hls; reflexivity|].
  split; [simpl; rewrite Htu; reflexivity|].
  split; [simpl; rewrite Ha; simpl; rewrite <- app_assoc; reflexivity|].
  split.
  { simpl. rewrite flipbook_updateUI.
    rewrite page_or_current_nonzero by discriminate.
    rewrite !updatePageShadows_calls. reflexivity. }
  split; [simpl; rewrite prevBtn_updateUI; reflexivity|].
  split; [simpl; rewrite nextBtn_updateUI; reflexivity|].
  split.
  { simpl. rewrite Hld. simpl. case_bool_decide as Hh; [exact Hh|].
    apply elem_of_app. right. apply list_elem_of_singleton. reflexivity. }
  split; simpl; rewrite Hld; reflexivity.
Qed.

End InitOutcomes.

(** X2: init always returns normally, and leaves one of two books: either
    the book is ready, the three handlers are bound after those there were,
    and the loading indicator is hidden with its text untouched; or the
    indicator is visible with the text of an error in red, the ready flag and
    the handlers being as they were. *)
Theorem init_ready_or_error_shown (br : Browser) (b : TurnJSBook) :
  let r := init br b in
  r.1 = Normal tt /\
  (isLoaded r.2 = true /\
   listeners r.2 = listeners b ++ [PrevClick; NextClick; Keydown] /\
   "hidden" ∈ loading_classes (loadingElement r.2) /\
   loading_text (loadingElement r.2) = loading_text (loadingElement b) /\
   loading_color (loadingElement r.2) = loading_color (loadingElement b)
   \/
   exists e,
     loading_text (loadingElement r.2)
     = "Error: " +:+ JS.message e +:+ ". Check console for details." /\
     loading_color (loadingElement r.2) = "#ff6b6b" /\
     ("hidden" ∉ loading_classes (loadingElement r.2)) /\
     isLoaded r.2 = isLoaded b /\
     listeners r.2 = listeners b).
Proof.
  intros r. subst r.
  destruct (init_cases br b)
    as [(k & e & _ & _ & _ & ->)|[(_ & e & _ & ->)|(_ & w & _ & _ & ->)]].
  - split; [reflexivity|]. right. exists e.
    split; [reflexivity|]. split; [reflexivity|].
    split; [apply showLoading_not_hidden|]. split; reflexivity.
  - split; [reflexivity|]. right. exists e.
    split; [reflexivity|]. split; [reflexivity|].
    split; [destruct (_ && _); apply showLoading_not_hidden|].
    destruct (_ && _); split; reflexivity.
  - destruct (init_started_fields br b w)
      as (Hr & Hi & Hl & _ & _ & _ & _ & _ & Hh & Ht & Hc).
    split; [exact Hr|]. left. repeat split; assumption.
Qed.

(** X3: when every load is fulfilled, both libraries are there and the
    plugin's constructor, given the container with the pages 0, ..., N - 1
    appended, answers with a widget, init leaves the book ready: the widget
    attached, the three handlers bound, the previous button disabled, the
    next button disabled only in a book of one page or none, the loading
    indicator hidden, and on record the page actions followed by the one
    call of the plugin with the options of the script. *)
Theorem init_success (br : Browser) (b : TurnJSBook) (w : Widget) :
  (forall i, i < iterations b -> state (loaded br i) = Fulfilled) ->
  jquery_loaded br = true ->
  turn_loaded br = true ->
  turn_create br turn_options
    (flipbook b ++ (page_of <$> seq 0 (iterations b))) = inr w ->
  let r := init br b in
  r.1 = Normal tt /\
  isLoaded r.2 = true /\
  listeners r.2 = listeners b ++ [PrevClick; NextClick; Keydown] /\
  turn r.2 = Some w /\
  actions r.2
  = actions b ++ mjoin (page_trace br <$> seq 0 (iterations b))
      ++ [TurnInit (mkTurnOptions 800 600 true 1000 true 50 true true)] /\
  prevBtn r.2 = true /\
  nextBtn r.2 = bool_decide (totalPages b <= 1)%Z /\
  "hidden" ∈ loading_classes (loadingElement r.2).
Proof.
  intros Hok Hjq Htl Hw r. subst r.
  destruct (init_cases br b)
    as [(k & e & Hk & _ & Hko & _)
       |[(_ & e & Hf & _)|(_ & w' & _ & Hc & ->)]].
  - rewrite Hok in Hko by exact Hk. discriminate.
  - unfold widget_failure in Hf. rewrite Hjq, Htl in Hf. simpl in Hf.
    rewrite Hw in Hf. discriminate.
  - simpl in Hc. rewrite Hw in Hc. injection Hc as <-.
    destruct (init_started_fields br b w)
      as (Hr & Hi & Hl & Ht & Ha & _ & Hp & Hn & Hh & _).
    repeat split; try assumption.
    rewrite Hn. apply bool_decide_ext. lia.
Qed.

(** X4: with jQuery there and every load fulfilled, a widget that cannot
    be started leaves the book not ready and shows why.  When Turn.js is
    missing the plugin is not called: all the pages are in the container
    (nothing is taken back), the text is that Turn.js is not loaded, and the
    flag, the handlers, the widget and the buttons are as they were.  When
    the plugin's constructor throws, its error is the one shown, the call is
    on record after the page actions, and the flag, the handlers, the widget
    and the buttons are as they were. *)
Theorem init_widget_failure (br : Browser) (b : TurnJSBook) :
  (forall i, i < iterations b -> state (loaded br i) = Fulfilled) ->
  jquery_loaded br = true ->
  let r := init br b in
  (turn_loaded br = false ->
     r.1 = Normal tt /\
     flipbook r.2 = flipbook b ++ (page_of <$> seq 0 (iterations b)) /\
     loading_text (loadingElement r.2)
     = "Error: Turn.js is not loaded. Check console for details." /\
     isLoaded r.2 = isLoaded b /\ listeners r.2 = listeners b /\
     turn r.2 = turn b /\
     prevBtn r.2 = prevBtn b /\ nextBtn r.2 = nextBtn b /\
     actions r.2
     = actions b ++ mjoin (page_trace br <$> seq 0 (iterations b))) /\
  (forall e, turn_loaded br = true ->
     turn_create br turn_options
       (flipbook b ++ (page_of <$> seq 0 (iterations b))) = inl e ->
     r.1 = Normal tt /\
     loading_text (loadingElement r.2)
     = "Error: " +:+ JS.message e +:+ ". Check console for details." /\
     isLoaded r.2 = isLoaded b /\ listeners r.2 = listeners b /\
     turn r.2 = turn b /\
     prevBtn r.2 = prevBtn b /\ nextBtn r.2 = nextBtn b /\
     actions r.2
     = actions b ++ mjoin (page_trace br <$> seq 0 (iterations b))
         ++ [TurnInit turn_options]).
Proof.
  intros Hok Hjq r. subst r.
  assert (forall e,
            widget_failure br
              (flipbook b ++ (page_of <$> seq 0 (iterations b))) = Some e ->
            init br b
            = showError e
                (if jquery_loaded br && turn_loaded br
                 then with_actions
                        (actions (preloaded br b) ++ [TurnInit turn_options])
                        (preloaded br b)
                 else preloaded br b)) as Hinit.
  { intros e Hf.
    destruct (init_cases br b)
      as [(k & e' & Hk & _ & Hko & _)
         |[(_ & e' & Hf' & ->)|(_ & w' & Hn & _ & _)]].
    - rewrite Hok in Hko by exact Hk. discriminate.
    - simpl in Hf'. rewrite Hf in Hf'. injection Hf' as <-. reflexivity.
    - simpl in Hn. rewrite Hf in Hn. discriminate. }
  split.
  - intros Htl. rewrite (Hinit (JS.mkError "Turn.js is not loaded"))
      by (unfold widget_failure; rewrite Hjq, Htl; reflexivity).
    rewrite Hjq, Htl. simpl. rewrite <- ?app_assoc. repeat split.
  - intros e Htl Hc. rewrite (Hinit e)
      by (unfold widget_failure; rewrite Hjq, Htl, Hc; reflexivity).
    rewrite Hjq, Htl. simpl. rewrite <- ?app_assoc. repeat split.
Qed.

(** ** Navigation once the book is ready *)

(** X5: in a ready book with the three handlers bound once, as the browser
    delivers the inputs: a click on the previous button sends the widget one
    `previous` command when the button is enabled and reaches no handler
    when it is disabled, and so for the next button and `next`; the left
    arrow sends one `previous` and the right arrow one `next` whatever the
    buttons are, the key handler not looking at them; any other key does
    nothing at all.  No input makes a handler throw. *)
Theorem navigation_when_ready (b : TurnJSBook) :
  isLoaded b = true ->
  listeners b = [PrevClick; NextClick; Keydown] ->
  (forall ev, (deliver_input ev b).1 = Normal tt) /\
  actions (deliver_input (Click PrevBtn) b).2
  = actions b ++ (if prevBtn b then [] else [TurnCommand Previous]) /\
  actions (deliver_input (Click NextBtn) b).2
  = actions b ++ (if nextBtn b then [] else [TurnCommand Next]) /\
  actions (deliver_input (Key "ArrowLeft") b).2
  = actions b ++ [TurnCommand Previous] /\
  actions (deliver_input (Key "ArrowRight") b).2
  = actions b ++ [TurnCommand Next] /\
  (forall key, key <> "ArrowLeft" -> key <> "ArrowRight" ->
     deliver_input (Key key) b = (Normal tt, b)) /\
  (prevBtn b = true -> deliver_input (Click PrevBtn) b = (Normal tt, b)) /\
  (nextBtn b = true -> deliver_input (Click NextBtn) b = (Normal tt, b)).
Proof.
  intros Hb Hl.
  assert (forall key,
            dispatch (Key key) b
            = if bool_decide (key = "ArrowLeft")
              then (Normal tt,
                    with_actions (actions b ++ [TurnCommand Previous]) b)
              else if bool_decide (key = "ArrowRight")
              then (Normal tt,
                    with_actions (actions b ++ [TurnCommand Next]) b)
              else (Normal tt, b)) as Hkey.
  { intros key. unfold dispatch. rewrite Hl. simpl.
    unfold bind, on_keydown. simpl. rewrite Hb. simpl.
    repeat case_bool_decide; reflexivity. }
  assert (dispatch (Click PrevBtn) b
          = (Normal tt, with_actions (actions b ++ [TurnCommand Previous]) b))
    as Hprev.
  { unfold dispatch. rewrite Hl. simpl. unfold bind, on_prev_click. simpl.
    rewrite Hb. reflexivity. }
  assert (dispatch (Click NextBtn) b
          = (Normal tt, with_actions (actions b ++ [TurnCommand Next]) b))
    as Hnext.
  { unfold dispatch. rewrite Hl. simpl. unfold bind, on_next_click. simpl.
    rewrite Hb. reflexivity. }
  split.
  { intros [[]|key]; unfold deliver_input.
    - destruct (prevBtn b); [reflexivity|]. rewrite Hprev. reflexivity.
    - destruct (nextBtn b); [reflexivity|]. rewrite Hnext. reflexivity.
    - rewrite Hkey. repeat case_bool_decide; reflexivity. }
  split.
  { unfold deliver_input. destruct (prevBtn b).
    - simpl. rewrite app_nil_r. reflexivity.
    - rewrite Hprev. reflexivity. }
  split.
  { unfold deliver_input. destruct (nextBtn b).
    - simpl. rewrite app_nil_r. reflexivity.
    - rewrite Hnext. reflexivity. }
  split; [unfold deliver_input; rewrite Hkey; reflexivity|].
  split; [unfold deliver_input; rewrite Hkey; reflexivity|].
  split.
  { intros key Hleft Hright. unfold deliver_input. rewrite Hkey.
    rewrite !bool_decide_eq_false_2 by assumption. reflexivity. }
  split; intros Hdis; unfold deliver_input; rewrite Hdis; reflexivity.
Qed.

(** ** [updateUI] without a page *)

(** X6: with a widget attached, updateUI called with 0, which is how a call
    without argument or with any falsy page is read, does what updateUI
    does for the page the widget reports: the previous button is disabled
    exactly when that page is at most 1, the next button exactly when it is
    at least totalPages, and the shadows are those of that page. *)
Theorem updateUI_falls_back_on_widget (b : TurnJSBook) (w : Widget) :
  turn b = Some w ->
  updateUI 0 b = updateUI (turn_page w) b /\
  (prevBtn (updateUI 0 b) = true <-> (turn_page w <= 1)%Z) /\
  (nextBtn (updateUI 0 b) = true <-> (turn_page w >= totalPages b)%Z) /\
  flipbook (updateUI 0 b) = flipbook (updatePageShadows (turn_page w) b).
Proof.
  intros Hw.
  assert (page_of_turn b = turn_page w) as Hp
    by (unfold page_of_turn; rewrite Hw; reflexivity).
  assert (page_or_current (turn_page w) b = turn_page w) as Hq.
  { unfold page_or_current. case_bool_decide as H0; [|reflexivity].
    rewrite Hp. reflexivity. }
  split; [unfold updateUI; rewrite Hq, page_or_current_zero, Hp;
          reflexivity|].
  rewrite prevBtn_updateUI, nextBtn_updateUI, flipbook_updateUI.
  rewrite page_or_current_zero, Hp, !bool_decide_eq_true.
  split; [tauto|]. split; [tauto|reflexivity].
Qed.

(** ** What the recomputation of the shadows leaves alone *)

Section ShadowFrame.

Lemma without_shadows_repaint (l r : bool) (e : Element) :
  without_shadows (repaint l r e) = without_shadows e.
Proof.
  unfold without_shadows, repaint.
  assert ("left-shadow" ∈ shadow_classes) as Hl
    by (unfold shadow_classes; rewrite !elem_of_cons; tauto).
  assert ("right-shadow" ∈ shadow_classes) as Hr
    by (unfold shadow_classes; rewrite !elem_of_cons; tauto).
  destruct l, r;
    rewrite ?removeClass_addClass by assumption; apply removeClass_idemp.
Qed.

Lemma without_shadows_updatePageShadows (page : Z) (b : TurnJSBook) :
  without_shadows <$> flipbook (updatePageShadows page b)
  = without_shadows <$> flipbook b.
Proof.
  apply list_eq. intros pos.
  rewrite !list_lookup_fmap, lookup_updatePageShadows.
  destruct (flipbook b !! pos) as [e|]; [|reflexivity]. simpl. f_equal.
  case_bool_decide; [apply without_shadows_repaint|reflexivity].
Qed.

Lemma not_page_updatePageShadows (page : Z) (b : TurnJSBook) (pos : nat)
    (e : Element) :
  flipbook b !! pos = Some e -> jQuery.hasClass "page" e = false ->
  flipbook (updatePageShadows page b) !! pos = Some e.
Proof.
  intros He Hp. rewrite lookup_updatePageShadows, He. simpl.
  rewrite bool_decide_eq_false_2; [reflexivity|].
  rewrite elem_of_find. intros (e' & He' & Hp'). congruence.
Qed.

(** Two books with the same fields are the same book. *)
Lemma book_eq (b1 b2 : TurnJSBook) :
  totalPages b1 = totalPages b2 -> isLoaded b1 = isLoaded b2 ->
  flipbook b1 = flipbook b2 -> turn b1 = turn b2 ->
  prevBtn b1 = prevBtn b2 -> nextBtn b1 = nextBtn b2 ->
  loadingElement b1 = loadingElement b2 -> listeners b1 = listeners b2 ->
  actions b1 = actions b2 -> b1 = b2.
Proof. destruct b1, b2; simpl; intros; subst; reflexivity. Qed.

(** The new children of [#flipbook] depend on the old ones, the page and
    the view only. *)
Lemma flipbook_updatePageShadows_ext (page : Z) (b1 b2 : TurnJSBook) :
  flipbook b1 = flipbook b2 -> turn b1 = turn b2 ->
  flipbook (updatePageShadows page b1) = flipbook (updatePageShadows page b2).
Proof.
  intros Hf Ht. rewrite !updatePageShadows_calls. simpl.
  unfold view_of. rewrite Hf, Ht. reflexivity.
Qed.

(** A recomputation wipes out the one before it. *)
Lemma flipbook_updatePageShadows_twice (p1 p2 : Z) (b : TurnJSBook) :
  flipbook (updatePageShadows p2 (updatePageShadows p1 b))
  = flipbook (updatePageShadows p2 b).
Proof.
  apply list_eq. intros pos.
  rewrite (lookup_updatePageShadows p2 (updatePageShadows p1 b)).
  rewrite find_page_updatePageShadows, view_of_updatePageShadows.
  rewrite !lookup_updatePageShadows.
  destruct (flipbook b !! pos) as [e|]; [|reflexivity]. simpl. f_equal.
  case_bool_decide; [apply repaint_repaint|reflexivity].
Qed.

End ShadowFrame.

(** X7: recomputing the shadows keeps the number and the order of the
    children of the container, the images of every node and all its classes
    other than the two shadow classes, in order; a node without the class
    `page` is not touched at all; and nothing outside the container
    changes. *)
Theorem updatePageShadows_preserves (b : TurnJSBook) (P : Z) :
  let b' := updatePageShadows P b in
  length (flipbook b') = length (flipbook b) /\
  jQuery.removeClass ["left-shadow"; "right-shadow"] <$> flipbook b'
  = jQuery.removeClass ["left-shadow"; "right-shadow"] <$> flipbook b /\
  content <$> flipbook b' = content <$> flipbook b /\
  (forall pos e, flipbook b !! pos = Some e ->
     jQuery.hasClass "page" e = false -> flipbook b' !! pos = Some e) /\
  jQuery.find "page" (flipbook b') = jQuery.find "page" (flipbook b) /\
  b' = with_flipbook (flipbook b') b.
Proof.
  intros b'. subst b'.
  pose proof (without_shadows_updatePageShadows P b) as Hw.
  split.
  { apply (f_equal length) in Hw. rewrite !length_fmap in Hw. exact Hw. }
  split; [exact Hw|].
  split.
  { apply (f_equal (fmap content)) in Hw.
    rewrite <- !list_fmap_compose in Hw. exact Hw. }
  split; [intros pos e; apply not_page_updatePageShadows|].
  split; [apply find_page_updatePageShadows|apply updatePageShadows_frame].
Qed.

(** X8: the last update wins: updateUI for a page after updateUI for any
    other page leaves the book updateUI for the later page alone would
    leave, and the same holds of the recomputation of the shadows; nothing
    of the earlier page survives. *)
Theorem updateUI_last_wins (b : TurnJSBook) (P1 P2 : Z) :
  updateUI P2 (updateUI P1 b) = updateUI P2 b /\
  updatePageShadows P2 (updatePageShadows P1 b) = updatePageShadows P2 b.
Proof.
  assert (updatePageShadows P2 (updatePageShadows P1 b)
          = updatePageShadows P2 b) as Hs.
  { rewrite (updatePageShadows_frame P2 (updatePageShadows P1 b)).
    rewrite flipbook_updatePageShadows_twice.
    rewrite (updatePageShadows_frame P1 b), (updatePageShadows_frame P2 b).
    reflexivity. }
  split; [|exact Hs].
  destruct (updateUI_frame P1 b) as (Ht1 & Hi1 & Htu1 & Hld1 & Hls1 & Ha1).
  destruct (updateUI_frame P2 b) as (Ht2 & Hi2 & Htu2 & Hld2 & Hls2 & Ha2).
  destruct (updateUI_frame P2 (updateUI P1 b))
    as (Ht3 & Hi3 & Htu3 & Hld3 & Hls3 & Ha3).
  assert (page_or_current P2 (updateUI P1 b) = page_or_current P2 b) as Hq.
  { unfold page_or_current, page_of_turn. rewrite Htu1. reflexivity. }
  apply book_eq; try congruence.
  - rewrite !flipbook_updateUI, Hq.
    rewrite (flipbook_updatePageShadows_ext _ (updateUI P1 b)
               (updatePageShadows (page_or_current P1 b) b)).
    + apply flipbook_updatePageShadows_twice.
    + apply flipbook_updateUI.
    + rewrite Htu1, updatePageShadows_frame. reflexivity.
  - rewrite !prevBtn_updateUI, Hq. reflexivity.
  - rewrite !nextBtn_updateUI, Hq, Ht1. reflexivity.
Qed.

(** ** One shadow of each kind at most *)

Section OneShadow.

Lemma page_shadows_inv (page : Z) (b : TurnJSBook) (k : nat) (l r : bool) :
  page_shadows k (updatePageShadows page b) = Some (l, r) ->
  k < page_count b /\
  l = left_shadow_at page (view_of b) (page_count b) k /\
  r = right_shadow_at page (view_of b) (page_count b) k.
Proof.
  intros H. destruct (decide (k < page_count b)) as [Hk|Hk].
  - rewrite page_shadows_updatePageShadows in H by exact Hk.
    injection H as <- <-. repeat split. exact Hk.
  - unfold page_shadows in H. rewrite nth_page_ge in H; [discriminate|].
    rewrite page_count_updatePageShadows. lia.
Qed.

Lemma left_shadow_at_unique (page : Z) (view : option (list Z))
    (n k1 k2 : nat) :
  left_shadow_at page view n k1 = true ->
  left_shadow_at page view n k2 = true -> k1 = k2.
Proof.
  unfold left_shadow_at. destruct view as [[|v0 [|v1 vs]]|];
    try discriminate; rewrite !bool_decide_eq_true; lia.
Qed.

Lemma right_shadow_at_unique (page : Z) (view : option (list Z))
    (n k1 k2 : nat) :
  right_shadow_at page view n k1 = true ->
  right_shadow_at page view n k2 = true -> k1 = k2.
Proof.
  unfold right_shadow_at. destruct view as [[|v0 [|v1 vs]]|];
    try discriminate; rewrite !bool_decide_eq_true; lia.
Qed.

End OneShadow.

(** X9: after the shadows are recomputed at most one page has the left
    shadow and at most one has the right shadow; and with a one-page view
    the book never shows both kinds: there is a left shadow only when the
    page is not 1, a right shadow only when it is. *)
Theorem one_shadow_of_each_kind (b : TurnJSBook) (P : Z) (k1 k2 : nat)
    (s1 s2 : bool) :
  let b' := updatePageShadows P b in
  (page_shadows k1 b' = Some (true, s1) ->
   page_shadows k2 b' = Some (true, s2) -> k1 = k2) /\
  (page_shadows k1 b' = Some (s1, true) ->
   page_shadows k2 b' = Some (s2, true) -> k1 = k2) /\
  (forall v, view_of b = Some [v] ->
     (page_shadows k1 b' = Some (true, s1) -> P <> 1%Z /\ s1 = false) /\
     (page_shadows k1 b' = Some (s1, true) -> P = 1%Z /\ s1 = false)).
Proof.
  intros b'. subst b'. split; [|split].
  - intros H1 H2. apply page_shadows_inv in H1 as (_ & H1 & _).
    apply page_shadows_inv in H2 as (_ & H2 & _).
    symmetry in H1, H2. exact (left_shadow_at_unique _ _ _ _ _ H1 H2).
  - intros H1 H2. apply page_shadows_inv in H1 as (_ & _ & H1).
    apply page_shadows_inv in H2 as (_ & _ & H2).
    symmetry in H1, H2. exact (right_shadow_at_unique _ _ _ _ _ H1 H2).
  - intros v Hv. split.
    + intros H1. apply page_shadows_inv in H1 as (_ & Hl & Hr).
      rewrite Hv in Hl, Hr. unfold left_shadow_at in Hl.
      unfold right_shadow_at in Hr. symmetry in Hl.
      apply bool_decide_eq_true in Hl as [HP _].
      split; [exact HP|]. rewrite Hr. apply bool_decide_eq_false_2. tauto.
    + intros H1. apply page_shadows_inv in H1 as (_ & Hl & Hr).
      rewrite Hv in Hl, Hr. unfold left_shadow_at in Hl.
      unfold right_shadow_at in Hr. symmetry in Hr.
      apply bool_decide_eq_true in Hr as [HP _].
      split; [exact HP|]. rewrite Hl. apply bool_decide_eq_false_2. tauto.
Qed.

(** ** Where the pages stand among the [.page] nodes *)

Section PageRanks.

Lemma filter_ext_elem {A} (P Q : A -> Prop) `{!forall x, Decision (P x)}
    `{!forall x, Decision (Q x)} (l : list A) :
  (forall x, x ∈ l -> (P x <-> Q x)) -> filter P l = filter Q l.
Proof.
  induction l as [|x l IH]; intros Hext; [reflexivity|].
  rewrite !filter_cons.
  rewrite IH by (intros y Hy; apply Hext; right; exact Hy).
  pose proof (Hext x ltac:(left)) as Hx.
  destruct (decide (P x)), (decide (Q x)); tauto || reflexivity.
Qed.

(** A node appended to the container comes last in [find]. *)
Lemma find_snoc (c : string) (dom : list Element) (e : Element) :
  jQuery.find c (dom ++ [e])
  = jQuery.find c dom
      ++ (if jQuery.hasClass c e then [length dom] else []).
Proof.
  unfold jQuery.find. rewrite length_app. simpl.
  rewrite Nat.add_1_r, seq_S, filter_app. simpl. f_equal.
  - apply filter_ext_elem. intros k Hk. apply elem_of_seq in Hk.
    rewrite lookup_app_l by lia. reflexivity.
  - rewrite filter_cons, filter_nil.
    rewrite lookup_app_r by lia. rewrite Nat.sub_diag. simpl.
    destruct (jQuery.hasClass c e); reflexivity.
Qed.

Lemma find_page_pages (dom : list Element) (i n : nat) :
  jQuery.find "page" (dom ++ (page_of <$> seq i n))
  = jQuery.find "page" dom ++ seq (length dom) n.
Proof.
  revert i. induction n as [|n IH]; intros i.
  - simpl. rewrite !app_nil_r. reflexivity.
  - rewrite !seq_S, fmap_app, app_assoc. simpl.
    rewrite find_snoc, IH, length_app, length_fmap, length_seq.
    rewrite <- app_assoc. reflexivity.
Qed.

End PageRanks.

(** X10: the pages createPages appends all carry the class `page` and come
    after the `.page` nodes the container had: when every load is fulfilled
    the number of `.page` nodes grows by N, the page of index i is the
    `.page` node of rank (number there before) + i, and the nodes there
    before keep their rank.  In a container that had no `.page` node the
    page of number p is therefore at rank p - 1, which is where
    updatePageShadows looks for it. *)
Theorem createPages_page_ranks (br : Browser) (b : TurnJSBook) (N : nat) :
  totalPages b = Z.of_nat N ->
  (forall i, i < N -> state (loaded br i) = Fulfilled) ->
  let r := createPages br b in
  page_count r.2 = page_count b + N /\
  (forall i, i < N ->
     nth_page (page_count b + i) (flipbook r.2) = Some (page_of i)) /\
  (forall k, k < page_count b ->
     nth_page k (flipbook r.2) = nth_page k (flipbook b)) /\
  (page_count b = 0 ->
   forall p, (1 <= p <= Z.of_nat N)%Z ->
     nth_page (Z.to_nat (p - 1)) (flipbook r.2)
     = Some (page_of (Z.to_nat (p - 1)))).
Proof.
  intros HN Hok r. subst r.
  assert (flipbook (createPages br b).2
          = flipbook b ++ (page_of <$> seq 0 N)) as Hfb.
  { unfold createPages. rewrite HN, Nat2Z.id.
    rewrite createPages_from_fulfilled by (intros j Hj; apply Hok; lia).
    reflexivity. }
  unfold page_count. rewrite Hfb. clear Hfb.
  assert (forall i, i < N ->
            nth_page (length (jQuery.find "page" (flipbook b)) + i)
                     (flipbook b ++ (page_of <$> seq 0 N))
            = Some (page_of i)) as Hrank.
  { intros i Hi. unfold nth_page.
    rewrite find_page_pages, lookup_app_r by lia.
    replace (length (jQuery.find "page" (flipbook b)) + i
             - length (jQuery.find "page" (flipbook b))) with i by lia.
    rewrite lookup_seq_lt by lia. simpl.
    rewrite lookup_app_r by lia.
    replace (length (flipbook b) + i - length (flipbook b)) with i by lia.
    rewrite list_lookup_fmap, lookup_seq_lt by lia. reflexivity. }
  split; [|split; [exact Hrank|split]].
  - rewrite find_page_pages, length_app, length_seq. reflexivity.
  - intros k Hk. unfold nth_page.
    rewrite find_page_pages, lookup_app_l by exact Hk.
    destruct (jQuery.find "page" (flipbook b) !! k) as [pos|] eqn:Hpos;
      [|reflexivity].
    simpl. apply lookup_app_l.
    assert (pos ∈ jQuery.find "page" (flipbook b)) as Hin
      by (apply list_elem_of_lookup; exists k; exact Hpos).
    apply elem_of_find in Hin as (e & He & _).
    apply lookup_lt_Some in He. exact He.
  - intros H0 p Hp.
    specialize (Hrank (Z.to_nat (p - 1)) ltac:(lia)).
    rewrite H0 in Hrank. exact Hrank.
Qed.

(** ** The inputs after start-up *)

Section Inputs.

(** A handler sends commands to the widget and does nothing else. *)
Lemma handle_commands (ev : DomEvent) (l : Listener) (b : TurnJSBook) :
  exists cmds,
    handle ev l b = (Normal tt, advance [] (TurnCommand <$> cmds) b).
Proof.
  assert (forall c, turn_command c b
                    = (Normal tt, advance [] (TurnCommand <$> [c]) b))
    as Hcmd.
  { intros c. unfold turn_command, record, modify, advance, with_flipbook.
    simpl. rewrite app_nil_r. destruct b; reflexivity. }
  assert (ret tt b = (Normal tt, advance [] (TurnCommand <$> []) b)) as Hret
    by (simpl; rewrite advance_nil; reflexivity).
  destruct l, ev as [[]|k]; simpl;
    unfold on_prev_click, on_next_click, on_keydown;
    repeat case_match; eauto.
Qed.

Lemma run_handlers_commands (ev : DomEvent) (ls : list Listener)
    (b : TurnJSBook) :
  exists cmds,
    run_handlers ev ls b = (Normal tt, advance [] (TurnCommand <$> cmds) b).
Proof.
  revert b. induction ls as [|l ls IH]; intros b.
  - exists []. simpl. rewrite advance_nil. reflexivity.
  - simpl. unfold bind. destruct (handle_commands ev l b) as (c1 & ->).
    destruct (IH (advance [] (TurnCommand <$> c1) b)) as (c2 & ->).
    exists (c1 ++ c2). rewrite advance_advance, fmap_app. reflexivity.
Qed.

(** What one input can change: the record of commands, the buttons, the
    widget's report and the shadow classes. *)
Lemma react_shape (b : TurnJSBook) (i : Input) :
  totalPages (react b i) = totalPages b /\
  isLoaded (react b i) = isLoaded b /\
  listeners (react b i) = listeners b /\
  loadingElement (react b i) = loadingElement b /\
  without_shadows <$> flipbook (react b i) = without_shadows <$> flipbook b /\
  (exists cmds, actions (react b i) = actions b ++ (TurnCommand <$> cmds)) /\
  (turn b <> None -> turn (react b i) <> None).
Proof.
  assert (exists cmds : list Command,
            actions b = actions b ++ (TurnCommand <$> cmds)) as Hnone
    by (exists []; simpl; rewrite app_nil_r; reflexivity).
  destruct i as [ev|page|w]; simpl.
  - unfold dispatch.
    destruct (run_handlers_commands ev (listeners b) b) as (cmds & ->).
    simpl. rewrite app_nil_r.
    split; [reflexivity|]. split; [reflexivity|]. split; [reflexivity|].
    split; [reflexivity|]. split; [reflexivity|].
    split; [exists cmds; reflexivity|tauto].
  - unfold turning. destruct (turn b) eqn:Hturn; simpl; rewrite ?Hturn;
      (split; [reflexivity|]; split; [reflexivity|]; split; [reflexivity|];
       split; [reflexivity|]; split; [reflexivity|];
       split; [exact Hnone|tauto]).
  - destruct (turn b) as [w0|]; simpl.
    + unfold turned.
      destruct (updateUI_frame (turn_page w) (with_turn (Some w) b))
        as (Ht & Hi & Htu & Hld & Hls & Ha).
      rewrite Ht, Hi, Htu, Hld, Hls, Ha, flipbook_updateUI.
      rewrite without_shadows_updatePageShadows. simpl.
      split; [reflexivity|]. split; [reflexivity|]. split; [reflexivity|].
      split; [reflexivity|]. split; [reflexivity|].
      split; [exact Hnone|discriminate].
    + split; [reflexivity|]. split; [reflexivity|]. split; [reflexivity|].
      split; [reflexivity|]. split; [reflexivity|].
      split; [exact Hnone|tauto].
Qed.

(** Before the book is ready and the widget exists, an input changes
    nothing. *)
Lemma react_before_start (b : TurnJSBook) (i : Input) :
  isLoaded b = false -> turn b = None -> react b i = b.
Proof.
  intros Hb Ht. destruct i as [ev|page|w]; simpl.
  - unfold dispatch. rewrite run_handlers_not_loaded by exact Hb.
    reflexivity.
  - rewrite Ht. reflexivity.
  - rewrite Ht. reflexivity.
Qed.

Lemma run_before_start (b : TurnJSBook) (inputs : list Input) :
  isLoaded b = false -> turn b = None -> run b inputs = b.
Proof.
  intros Hb Ht. unfold run. induction inputs as [|i inputs IH];
    [reflexivity|].
  simpl. rewrite react_before_start by assumption. exact IH.
Qed.

Lemma run_shape (b : TurnJSBook) (inputs : list Input) :
  totalPages (run b inputs) = totalPages b /\
  isLoaded (run b inputs) = isLoaded b /\
  listeners (run b inputs) = listeners b /\
  loadingElement (run b inputs) = loadingElement b /\
  without_shadows <$> flipbook (run b inputs)
  = without_shadows <$> flipbook b /\
  (exists cmds, actions (run b inputs) = actions b ++ (TurnCommand <$> cmds)) /\
  (turn b <> None -> turn (run b inputs) <> None).
Proof.
  unfold run. revert b. induction inputs as [|i inputs IH]; intros b.
  - simpl. repeat split; try tauto.
    exists []. simpl. rewrite app_nil_r. reflexivity.
  - simpl.
    destruct (IH (react b i)) as (Ht & Hi & Hl & Hld & Hw & (c2 & Ha) & Htu).
    destruct (react_shape b i)
      as (Ht' & Hi' & Hl' & Hld' & Hw' & (c1 & Ha') & Htu').
    rewrite Ht, Hi, Hl, Hld, Hw, Ha, Ha'.
    repeat split; try assumption; [|tauto].
    exists (c1 ++ c2). rewrite fmap_app, app_assoc. reflexivity.
Qed.

Lemma command_not_in_page_traces (br : Browser) (l : list nat) (c : Command) :
  TurnCommand c ∉ mjoin (page_trace br <$> l).
Proof.
  rewrite list_elem_of_join. intros (t & Hc & Ht).
  apply list_elem_of_fmap in Ht as (k & -> & _). unfold page_trace in Hc.
  rewrite !elem_of_cons, elem_of_nil in Hc.
  destruct Hc as [?|[?|[?|[]]]]; discriminate.
Qed.

Lemma command_not_in_failed_trace (br : Browser) (i : nat) (c : Command) :
  TurnCommand c ∉ failed_trace br i.
Proof.
  unfold failed_trace. rewrite !elem_of_cons, elem_of_nil.
  intros [?|[?|[]]]; discriminate.
Qed.

(** The book the constructor leaves is either ready, with its widget and
    the three handlers, or not ready, without widget, handler or command. *)
Lemma constructor_fields (br : Browser) (d : Document) :
  let b := (constructor br d).2 in
  (isLoaded b = true /\
   listeners b = [PrevClick; NextClick; Keydown] /\
   turn b <> None /\
   "hidden" ∈ loading_classes (loadingElement b))
  \/
  (isLoaded b = false /\ listeners b = [] /\ turn b = None /\
   forall c, TurnCommand c ∉ actions b).
Proof.
  intros b. subst b. unfold constructor.
  assert (isLoaded (fresh_book d) = false /\ listeners (fresh_book d) = [] /\
          turn (fresh_book d) = None /\ actions (fresh_book d) = [])
    as (Hi0 & Hl0 & Ht0 & Ha0) by repeat split.
  set (b0 := fresh_book d) in *. clearbody b0.
  destruct (init_cases br b0)
    as [(k & e & _ & _ & _ & ->)|[(_ & e & _ & ->)|(_ & w & _ & _ & ->)]].
  - right. simpl. rewrite Hi0, Hl0, Ht0, Ha0.
    split; [reflexivity|]. split; [reflexivity|].
    split; [reflexivity|]. intros c Hc. simpl in Hc.
    apply elem_of_app in Hc as [Hc|Hc].
    + exact (command_not_in_page_traces br _ c Hc).
    + exact (command_not_in_failed_trace br _ c Hc).
  - right. unfold preloaded, advance.
    destruct (_ && _); simpl; rewrite Hi0, Hl0, Ht0, Ha0;
      (split; [reflexivity|]; split; [reflexivity|];
       split; [reflexivity|]); intros c Hc; simpl in Hc.
    + apply elem_of_app in Hc as [Hc|Hc].
      * exact (command_not_in_page_traces br _ c Hc).
      * apply list_elem_of_singleton in Hc. discriminate.
    + exact (command_not_in_page_traces br _ c Hc).
  - left.
    destruct (init_started_fields br b0 w)
      as (_ & Hi & Hl & Ht & _ & _ & _ & _ & Hh & _).
    split; [exact Hi|]. split; [rewrite Hl, Hl0; reflexivity|].
    split; [rewrite Ht; discriminate|exact Hh].
Qed.

End Inputs.

(** X11: in every state the page goes through, from the constructor on and
    whatever the inputs: handlers are bound only if the book is ready, a
    command has gone to the widget only if the book is ready, and a ready
    book has exactly the three handlers, bound once, a widget, and a hidden
    loading indicator. *)
Theorem commands_only_when_ready (br : Browser) (d : Document)
    (inputs : list Input) :
  let b := run (constructor br d).2 inputs in
  (listeners b <> [] -> isLoaded b = true) /\
  (forall c, TurnCommand c ∈ actions b -> isLoaded b = true) /\
  (isLoaded b = true ->
   listeners b = [PrevClick; NextClick; Keydown] /\
   turn b <> None /\
   "hidden" ∈ loading_classes (loadingElement b)).
Proof.
  intros b. subst b.
  destruct (constructor_fields br d)
    as [(Hi & Hl & Ht & Hh)|(Hi & Hl & Ht & Hc)].
  - destruct (run_shape (constructor br d).2 inputs)
      as (_ & Hi' & Hl' & Hld' & _ & _ & Ht').
    rewrite Hi', Hl', Hld'. repeat split; auto.
  - rewrite run_before_start by assumption.
    rewrite Hi, Hl. split; [congruence|].
    split; [|discriminate]. intros c Hin. destruct (Hc c Hin).
Qed.

(** X12: no input after start-up (click, key, or callback of the widget)
    changes the page count of the book, the ready flag, the handlers or the
    loading indicator, and what the script has on record only grows, by
    commands to the widget.  Before the book is ready and the widget exists
    the inputs change nothing at all. *)
Theorem inputs_change_little (b : TurnJSBook) (inputs : list Input) :
  let b' := run b inputs in
  totalPages b' = totalPages b /\
  isLoaded b' = isLoaded b /\
  listeners b' = listeners b /\
  loadingElement b' = loadingElement b /\
  (exists cmds, actions b' = actions b ++ (TurnCommand <$> cmds)) /\
  (isLoaded b = false -> turn b = None -> b' = b).
Proof.
  intros b'. subst b'.
  destruct (run_shape b inputs) as (Ht & Hi & Hl & Hld & _ & Ha & _).
  repeat split; try assumption.
  apply run_before_start.
Qed.

(** ** Views that point outside the book *)

(** X13: a view that names a page beyond the last one shades nothing for
    it: with a two-page view whose right page is beyond the book or not
    positive no page gets the right shadow, and when its left page is beyond
    the book or not positive, or P <= 1, no page gets the left shadow; with
    a one-page view whose page is beyond the book no page gets any
    shadow. *)
Theorem view_beyond_book_shades_nothing (b : TurnJSBook) (P : Z) (k : nat)
    (sl sr : bool) :
  let b' := updatePageShadows P b in
  let n := Z.of_nat (page_count b) in
  page_shadows k b' = Some (sl, sr) ->
  (forall l r, view_of b = Some [l; r] ->
     ((r > n \/ r <= 0)%Z -> sr = false) /\
     ((l > n \/ l <= 0 \/ P <= 1)%Z -> sl = false)) /\
  (forall v, view_of b = Some [v] -> (v > n)%Z ->
     sl = false /\ sr = false).
Proof.
  intros b' n Hk. subst b' n.
  apply page_shadows_inv in Hk as (Hlt & -> & ->). split.
  - intros l r Hv. rewrite Hv. unfold left_shadow_at, right_shadow_at.
    split; intros H; apply bool_decide_eq_false_2; lia.
  - intros v Hv Hn. rewrite Hv.
    unfold left_shadow_at, right_shadow_at, eq_index.
    rewrite (bool_decide_eq_false_2 (v - 1 < 0)%Z) by lia.
    split; apply bool_decide_eq_false_2; lia.
Qed.

(** X14: in the one-page branch the index is not checked before it goes to
    [eq], which counts a negative index from the end: when the view's only
    page is v with -n < v <= 0 (n pages in the book), the shadow goes to the
    page of rank n + v - 1; a view of page 0 shades the last page of the
    book. *)
Theorem one_page_view_counts_from_the_end (b : TurnJSBook) (P v : Z) :
  let b' := updatePageShadows P b in
  let n := Z.of_nat (page_count b) in
  view_of b = Some [v] ->
  (- n < v <= 0)%Z ->
  page_shadows (Z.to_nat (n + v - 1)) b'
  = Some (bool_decide (P <> 1%Z), bool_decide (P = 1%Z)) /\
  (v = 0%Z ->
   page_shadows (page_count b - 1) b'
   = Some (bool_decide (P <> 1%Z), bool_decide (P = 1%Z))).
Proof.
  intros b' n Hv Hn. subst b' n.
  assert (page_shadows (Z.to_nat (Z.of_nat (page_count b) + v - 1))
            (updatePageShadows P b)
          = Some (bool_decide (P <> 1%Z), bool_decide (P = 1%Z))) as Hmain.
  { rewrite page_shadows_updatePageShadows by lia.
    rewrite Hv. unfold left_shadow_at, right_shadow_at, eq_index.
    rewrite (bool_decide_eq_true_2 (v - 1 < 0)%Z) by lia.
    do 2 f_equal; apply bool_decide_ext; lia. }
  split; [exact Hmain|].
  intros ->. rewrite <- Hmain. f_equal. lia.
Qed.

(** ** The loading indicator *)

Section LoadingIndicator.

Lemma filter_not_hidden_snoc (l : list string) :
  filter (fun c => c ∉ ["hidden"]) (l ++ ["hidden"])
  = filter (fun c => c ∉ ["hidden"]) l.
Proof.
  rewrite filter_app, filter_cons_False, filter_nil, app_nil_r;
    [reflexivity|].
  intros H. apply H, list_elem_of_singleton. reflexivity.
Qed.

Lemma filter_not_hidden_idemp (l : list string) :
  filter (fun c => c ∉ ["hidden"]) (filter (fun c => c ∉ ["hidden"]) l)
  = filter (fun c => c ∉ ["hidden"]) l.
Proof. rewrite list_filter_filter. apply list_filter_iff. tauto. Qed.

Lemma not_hidden_filter (l : list string) :
  "hidden" ∉ filter (fun c => c ∉ ["hidden"]) l.
Proof. rewrite list_elem_of_filter, list_elem_of_singleton. tauto. Qed.

End LoadingIndicator.

(** X15: showLoading leaves the loading indicator without the class
    `hidden` and hideLoading leaves it with that class; each done twice is
    the same as done once; showing after hiding is the same as showing, and
    hiding after showing puts `hidden` once, last, after the other classes.
    Neither touches the text, the colour or the other classes of the
    indicator, nor anything else in the book. *)
Theorem loading_indicator_toggles (b : TurnJSBook) :
  let shown := (showLoading b).2 in
  let hidden := (hideLoading b).2 in
  ("hidden" ∉ loading_classes (loadingElement shown)) /\
  "hidden" ∈ loading_classes (loadingElement hidden) /\
  (showLoading shown).2 = shown /\
  (hideLoading hidden).2 = hidden /\
  (showLoading hidden).2 = shown /\
  loading_classes (loadingElement (hideLoading shown).2)
  = filter (fun c => c <> "hidden") (loading_classes (loadingElement b))
      ++ ["hidden"] /\
  filter (fun c => c <> "hidden") (loading_classes (loadingElement hidden))
  = filter (fun c => c <> "hidden") (loading_classes (loadingElement b)) /\
  shown = with_loadingElement
            (mkLoading (loading_classes (loadingElement shown))
                       (loading_text (loadingElement b))
                       (loading_color (loadingElement b))) b /\
  hidden = with_loadingElement
             (mkLoading (loading_classes (loadingElement hidden))
                        (loading_text (loadingElement b))
                        (loading_color (loadingElement b))) b.
Proof.
  intros shown hidden. subst shown hidden.
  assert (forall l : list string,
            filter (fun c => c <> "hidden") l
            = filter (fun c => c ∉ ["hidden"]) l) as Hne.
  { intros l. apply list_filter_iff. intros c.
    rewrite list_elem_of_singleton. tauto. }
  rewrite !Hne.
  split; [apply not_hidden_filter|].
  split.
  { simpl. case_bool_decide as Hh; [exact Hh|].
    apply elem_of_app. right. apply list_elem_of_singleton. reflexivity. }
  split.
  { unfold showLoading, modify, with_loadingElement. simpl.
    rewrite filter_not_hidden_idemp. reflexivity. }
  split.
  { unfold hideLoading, modify, with_loadingElement. simpl.
    destruct (bool_decide ("hidden" ∈ loading_classes (loadingElement b)))
      eqn:Hh.
    - rewrite Hh. reflexivity.
    - rewrite bool_decide_eq_true_2; [reflexivity|].
      apply elem_of_app. right. apply list_elem_of_singleton. reflexivity. }
  split.
  { unfold showLoading, hideLoading, modify, with_loadingElement. simpl.
    case_bool_decide; [reflexivity|].
    rewrite filter_not_hidden_snoc. reflexivity. }
  split.
  { simpl. rewrite bool_decide_eq_false_2 by apply not_hidden_filter.
    reflexivity. }
  split.
  { simpl. case_bool_decide; [reflexivity|].
    apply filter_not_hidden_snoc. }
  split; reflexivity.
Qed.

(** ** A failed start *)

(** X16: a failed preload is final.  With jQuery there, when the load of
    page k is the first to be rejected, the book the constructor leaves is
    not ready, has no handler and no widget, holds after what the host
    document had in the container the pages 0, ..., k - 1 and no other,
    shows that load's error in the visible loading indicator, and has sent
    the widget no command; and no click, key or callback changes anything
    of it afterwards: the script has no way to try again. *)
Theorem failed_start_is_final (br : Browser) (d : Document) (k : nat)
    (e : JS.Error) (inputs : list Input) :
  jquery_loaded br = true ->
  k < 21 ->
  (forall j, j < k -> state (loaded br j) = Fulfilled) ->
  state (loaded br k) = Rejected e ->
  let b := (constructor br d).2 in
  run b inputs = b /\
  isLoaded b = false /\ listeners b = [] /\ turn b = None /\
  flipbook b = doc_flipbook d ++ (page_of <$> seq 0 k) /\
  loading_text (loadingElement b)
  = "Error: " +:+ JS.message e +:+ ". Check console for details." /\
  ("hidden" ∉ loading_classes (loadingElement b)) /\
  (forall c, TurnCommand c ∉ actions b).
Proof.
  intros _ Hk Hok Hko b. subst b. unfold constructor.
  assert (isLoaded (fresh_book d) = false /\ listeners (fresh_book d) = [] /\
          turn (fresh_book d) = None /\ actions (fresh_book d) = [] /\
          flipbook (fresh_book d) = doc_flipbook d /\
          iterations (fresh_book d) = 21)
    as (Hi0 & Hl0 & Ht0 & Ha0 & Hf0 & Hn0) by repeat split.
  set (b0 := fresh_book d) in *. clearbody b0.
  destruct (init_cases br b0)
    as [(k' & e' & Hk' & Hok' & Hko' & ->)
       |[(Hall & _)|(Hall & _)]].
  - assert (k' = k) as ->.
    { destruct (Nat.lt_trichotomy k' k) as [Hlt|[Heq|Hgt]]; [|exact Heq|].
      - rewrite Hok in Hko' by exact Hlt. discriminate.
      - rewrite Hok' in Hko by exact Hgt. discriminate. }
    assert (e' = e) as -> by congruence.
    assert (forall pages acts,
              isLoaded (showError e (advance pages acts (showLoading b0).2)).2
              = false /\
              turn (showError e (advance pages acts (showLoading b0).2)).2
              = None) as Hfields
      by (intros pages acts; split; simpl; assumption).
    destruct (Hfields (page_of <$> seq 0 k)
                (mjoin (page_trace br <$> seq 0 k) ++ failed_trace br k))
      as (Hi & Ht).
    split; [apply run_before_start; assumption|].
    split; [exact Hi|]. split; [simpl; exact Hl0|]. split; [exact Ht|].
    split; [simpl; rewrite Hf0; reflexivity|].
    split; [reflexivity|].
    split; [apply showLoading_not_hidden|].
    intros c Hc. simpl in Hc. rewrite Ha0 in Hc. simpl in Hc.
    apply elem_of_app in Hc as [Hc|Hc].
    + exact (command_not_in_page_traces br _ c Hc).
    + exact (command_not_in_failed_trace br _ c Hc).
  - rewrite Hall in Hko by lia. discriminate.
  - rewrite Hall in Hko by lia. discriminate.
Qed.

(** ** Instances of the further properties *)

Lemma createPages_appends_a_prefix_witness :
  (totalPages empty_book <= 0)%Z /\
  createPages good_browser empty_book = (Normal tt, empty_book) /\
  (createPages (slow_browser (imagePath 2)) (fresh_book empty_document)).1
  <> Suspended.
Proof.
  assert (totalPages empty_book <= 0)%Z as H0 by (simpl; lia).
  destruct (createPages_appends_a_prefix good_browser empty_book)
    as (_ & _ & Hempty).
  destruct (createPages_appends_a_prefix (slow_browser (imagePath 2))
              (fresh_book empty_document)) as (_ & Hret & _).
  split; [exact H0|]. split; [exact (Hempty H0)|exact Hret].
Defined.

Lemma init_success_witness :
  let b := fresh_book empty_document in
  let w := mkWidget 1 (Some [0; 1]%Z) in
  (forall i, i < iterations b -> state (loaded good_browser i) = Fulfilled) /\
  jquery_loaded good_browser = true /\ turn_loaded good_browser = true /\
  isLoaded (init good_browser b).2 = true /\
  turn (init good_browser b).2 = Some w /\
  prevBtn (init good_browser b).2 = true /\
  nextBtn (init good_browser b).2 = false.
Proof.
  intros b w.
  assert (forall i, i < iterations b ->
            state (loaded good_browser i) = Fulfilled) as Hok
    by (intros i _; unfold loaded; rewrite settle_loadImage; reflexivity).
  destruct (init_success good_browser b w Hok eq_refl eq_refl eq_refl)
    as (_ & Hi & _ & Ht & _ & Hp & Hn & _).
  split; [exact Hok|]. split; [reflexivity|]. split; [reflexivity|].
  split; [exact Hi|]. split; [exact Ht|]. split; [exact Hp|exact Hn].
Defined.

Lemma init_widget_failure_witness :
  let b := fresh_book empty_document in
  (forall i, i < iterations b ->
     state (loaded browser_without_turn i) = Fulfilled) /\
  jquery_loaded browser_without_turn = true /\
  turn_loaded browser_without_turn = false /\
  flipbook (init browser_without_turn b).2 = page_of <$> seq 0 21 /\
  isLoaded (init browser_without_turn b).2 = false /\
  listeners (init browser_without_turn b).2 = [] /\
  loading_text (loadingElement (init browser_without_turn b).2)
  = "Error: Turn.js is not loaded. Check console for details." /\
  turn_loaded browser_with_faulty_plugin = true /\
  isLoaded (init browser_with_faulty_plugin b).2 = false /\
  loading_text (loadingElement (init browser_with_faulty_plugin b).2)
  = "Error: turn: cannot start. Check console for details.".
Proof.
  intros b.
  assert (forall i, i < iterations b ->
            state (loaded browser_without_turn i) = Fulfilled) as Hok
    by (intros i _; unfold loaded; rewrite settle_loadImage; reflexivity).
  assert (forall i, i < iterations b ->
            state (loaded browser_with_faulty_plugin i) = Fulfilled) as Hok'
    by (intros i _; unfold loaded; rewrite settle_loadImage; reflexivity).
  destruct (init_widget_failure browser_without_turn b Hok eq_refl)
    as (Hmissing & _).
  destruct (Hmissing eq_refl) as (_ & Hp & Ht & Hi & Hl & _).
  destruct (init_widget_failure browser_with_faulty_plugin b Hok' eq_refl)
    as (_ & Hthrows).
  destruct (Hthrows (JS.mkError "turn: cannot start") eq_refl eq_refl)
    as (_ & Ht' & Hi' & _).
  split; [exact Hok|]. split; [reflexivity|]. split; [reflexivity|].
  split; [exact Hp|]. split; [exact Hi|]. split; [exact Hl|].
  split; [exact Ht|]. split; [reflexivity|]. split; [exact Hi'|exact Ht'].
Defined.

Lemma navigation_when_ready_witness :
  isLoaded ready_book = true /\
  listeners ready_book = [PrevClick; NextClick; Keydown] /\
  prevBtn ready_book = true /\ nextBtn ready_book = false /\
  deliver_input (Click PrevBtn) ready_book = (Normal tt, ready_book) /\
  actions (deliver_input (Click NextBtn) ready_book).2
  = actions ready_book ++ [TurnCommand Next] /\
  actions (deliver_input (Key "ArrowLeft") ready_book).2
  = actions ready_book ++ [TurnCommand Previous] /\
  deliver_input (Key "Enter") ready_book = (Normal tt, ready_book).
Proof.
  assert (isLoaded ready_book = true) as Hb by (vm_compute; reflexivity).
  assert (listeners ready_book = [PrevClick; NextClick; Keydown]) as Hl
    by (vm_compute; reflexivity).
  assert (prevBtn ready_book = true) as Hp by (vm_compute; reflexivity).
  assert (nextBtn ready_book = false) as Hn by (vm_compute; reflexivity).
  destruct (navigation_when_ready ready_book Hb Hl)
    as (_ & _ & Hnext & Hleft & _ & Hother & Hdis & _).
  split; [exact Hb|]. split; [exact Hl|]. split; [exact Hp|].
  split; [exact Hn|]. split; [exact (Hdis Hp)|]. split.
  - rewrite Hnext, Hn. reflexivity.
  - split; [exact Hleft|]. apply Hother; discriminate.
Defined.

Lemma updateUI_falls_back_on_widget_witness :
  let b := reporting 5 [4; 5]%Z ready_book in
  turn b = Some (mkWidget 5 (Some [4; 5]%Z)) /\
  updateUI 0 b = updateUI 5 b /\
  prevBtn (updateUI 0 b) = false.
Proof.
  intros b.
  destruct (updateUI_falls_back_on_widget b (mkWidget 5 (Some [4; 5]%Z))
              eq_refl) as (Heq & Hprev & _).
  split; [reflexivity|]. split; [exact Heq|].
  destruct (prevBtn (updateUI 0 b)); [|reflexivity].
  exfalso. apply (proj1 Hprev eq_refl). reflexivity.
Defined.

Lemma updatePageShadows_preserves_witness :
  flipbook annotated_book !! 0 = Some note /\
  jQuery.hasClass "page" note = false /\
  jQuery.hasClass "left-shadow" note = true /\
  flipbook (updatePageShadows 5 annotated_book) !! 0 = Some note.
Proof.
  assert (flipbook annotated_book !! 0 = Some note) as H0 by reflexivity.
  assert (jQuery.hasClass "page" note = false) as Hp
    by (vm_compute; reflexivity).
  destruct (updatePageShadows_preserves annotated_book 5)
    as (_ & _ & _ & Hkeep & _).
  split; [exact H0|]. split; [exact Hp|].
  split; [vm_compute; reflexivity|exact (Hkeep 0 note H0 Hp)].
Defined.

Lemma one_shadow_of_each_kind_witness :
  let b := reporting 5 [4; 5]%Z ready_book in
  page_shadows 3 (updatePageShadows 5 b) = Some (true, false) /\
  (forall k s, page_shadows k (updatePageShadows 5 b) = Some (true, s) ->
     k = 3).
Proof.
  intros b.
  assert (page_shadows 3 (updatePageShadows 5 b) = Some (true, false)) as H3
    by (vm_compute; reflexivity).
  split; [exact H3|]. intros k s Hk.
  destruct (one_shadow_of_each_kind b 5 k 3 s false) as (Hleft & _).
  exact (Hleft Hk H3).
Defined.

Lemma createPages_page_ranks_witness :
  let b := fresh_book empty_document in
  totalPages b = Z.of_nat 21 /\
  (forall i, i < 21 -> state (loaded good_browser i) = Fulfilled) /\
  page_count b = 0 /\
  page_count (createPages good_browser b).2 = 21 /\
  nth_page 4 (flipbook (createPages good_browser b).2) = Some (page_of 4).
Proof.
  intros b.
  assert (totalPages b = Z.of_nat 21) as HN by reflexivity.
  assert (forall i, i < 21 -> state (loaded good_browser i) = Fulfilled)
    as Hok by (intros i _; unfold loaded; rewrite settle_loadImage;
               reflexivity).
  assert (page_count b = 0) as H0 by reflexivity.
  destruct (createPages_page_ranks good_browser b 21 HN Hok)
    as (Hc & _ & _ & Hp).
  split; [exact HN|]. split; [exact Hok|]. split; [exact H0|].
  split; [exact Hc|]. exact (Hp H0 5%Z ltac:(lia)).
Defined.

Lemma commands_only_when_ready_witness :
  let late := run (constructor good_browser empty_document).2
                  [UserInput (Click NextBtn)] in
  let early := run (constructor (slow_browser (imagePath 2))
                                empty_document).2
                   [UserInput (Click NextBtn)] in
  TurnCommand Next ∈ actions late /\
  isLoaded late = true /\
  listeners late = [PrevClick; NextClick; Keydown] /\
  isLoaded early = false /\
  listeners early = [].
Proof.
  intros late early.
  assert (TurnCommand Next ∈ actions late) as Hin.
  { apply list_elem_of_lookup. exists 64. vm_compute. reflexivity. }
  destruct (commands_only_when_ready good_browser empty_document
              [UserInput (Click NextBtn)]) as (_ & Hcmd & Hready).
  destruct (commands_only_when_ready (slow_browser (imagePath 2))
              empty_document [UserInput (Click NextBtn)]) as (Hl & _ & _).
  assert (isLoaded early = false) as He by (vm_compute; reflexivity).
  split; [exact Hin|]. split; [exact (Hcmd Next Hin)|].
  split; [exact (proj1 (Hready (Hcmd Next Hin)))|]. split; [exact He|].
  destruct (listeners early) as [|l ls] eqn:El; [reflexivity|].
  assert (isLoaded early = true) as Habs by (apply Hl; discriminate).
  congruence.
Defined.

Lemma inputs_change_little_witness :
  let b := fresh_book empty_document in
  let inputs := [UserInput (Key "ArrowLeft"); WidgetTurned (mkWidget 3 None);
                 UserInput (Click PrevBtn)] in
  isLoaded b = false /\ turn b = None /\ run b inputs = b /\
  isLoaded (run ready_book inputs) = true /\
  listeners (run ready_book inputs) = [PrevClick; NextClick; Keydown].
Proof.
  intros b inputs.
  destruct (inputs_change_little b inputs) as (_ & _ & _ & _ & _ & H).
  destruct (inputs_change_little ready_book inputs)
    as (_ & Hi & Hl & _).
  split; [reflexivity|]. split; [reflexivity|].
  split; [exact (H eq_refl eq_refl)|].
  split; [rewrite Hi|rewrite Hl]; vm_compute; reflexivity.
Defined.

Lemma view_beyond_book_shades_nothing_witness :
  let b := reporting 21 [21; 22]%Z ready_book in
  page_shadows 20 (updatePageShadows 21 b) = Some (true, false) /\
  view_of b = Some [21; 22]%Z /\
  (22 > Z.of_nat (page_count b))%Z.
Proof.
  intros b.
  assert (page_shadows 20 (updatePageShadows 21 b) = Some (true, false))
    as H20 by (vm_compute; reflexivity).
  assert (22 > Z.of_nat (page_count b))%Z as Hn by (vm_compute; reflexivity).
  destruct (view_beyond_book_shades_nothing b 21 20 true false H20)
    as (Htwo & _).
  destruct (Htwo 21%Z 22%Z eq_refl) as (Hr & _).
  pose proof (Hr (or_introl Hn)) as Hfalse.
  split; [exact H20|]. split; [reflexivity|exact Hn].
Defined.

Lemma one_page_view_counts_from_the_end_witness :
  let b := reporting 21 [0]%Z ready_book in
  view_of b = Some [0]%Z /\
  (- Z.of_nat (page_count b) < 0 <= 0)%Z /\
  page_shadows 20 (updatePageShadows 21 b) = Some (true, false).
Proof.
  intros b.
  assert (page_count b = 21) as Hc by (vm_compute; reflexivity).
  assert (- Z.of_nat (page_count b) < 0 <= 0)%Z as Hn by (rewrite Hc; lia).
  destruct (one_page_view_counts_from_the_end b 21 0 eq_refl Hn)
    as (_ & Hlast).
  split; [reflexivity|]. split; [exact Hn|].
  pose proof (Hlast eq_refl) as H. rewrite Hc in H. exact H.
Defined.

Lemma failed_start_is_final_witness :
  let br := slow_browser (imagePath 2) in
  let b := (constructor br empty_document).2 in
  let inputs := [UserInput (Click NextBtn); UserInput (Key "ArrowRight");
                 WidgetTurned (mkWidget 2 (Some [2; 3]%Z))] in
  jquery_loaded br = true /\ 2 < 21 /\
  (forall j, j < 2 -> state (loaded br j) = Fulfilled) /\
  state (loaded br 2) = Rejected (timeout_error br (new_img 2)) /\
  run b inputs = b /\
  flipbook b = [page_of 0; page_of 1] /\
  isLoaded b = false.
Proof.
  intros br b inputs.
  assert (2 < 21) as Hk by lia.
  assert (forall j, j < 2 -> state (loaded br j) = Fulfilled) as Hok.
  { intros j Hj. destruct j as [|[|j]]; [reflexivity|reflexivity|lia]. }
  assert (state (loaded br 2) = Rejected (timeout_error br (new_img 2)))
    as Hko by (vm_compute; reflexivity).
  destruct (failed_start_is_final br empty_document 2 _ inputs
              eq_refl Hk Hok Hko) as (Hrun & Hi & _ & _ & Hf & _).
  split; [reflexivity|]. split; [exact Hk|]. split; [exact Hok|].
  split; [exact Hko|]. split; [exact Hrun|]. split; [exact Hf|exact Hi].
Defined.
